(** * ChampSim register allocator with value-prediction rollback

    A shallow embedding of [src/register_allocator.cc] and
    [inc/register_allocator.h], and of the packed trace records declared in
    [tracer/pin/trace_reader.cpp], followed by the properties the design
    document states about them.

    Integers are [Z]; the few places where the C++ code converts between
    integer types are written out ([to_uint16], [to_PHYSICAL_REGISTER_ID]).
    The two RATs, the register file and the free queue are lists, the rename
    history is a finite map from instruction ids to checkpoint vectors.
    Member functions are computations in a small state-and-failure monad:
    they either return, or throw (leaving the object as it was at the point
    of the throw), or abort on a failed assertion, or run into undefined
    behaviour.  Assertions are taken to be compiled in; the
    [champsim::debug_print] branches only print and are left out. *)

From Stdlib Require Import ZArith Lia.
From stdpp Require Import gmap list strings.

Local Open Scope Z_scope.

(** ** Integer types *)

(** [(uint16_t)x] for a 16-bit signed [x]: reduction modulo 2^16. *)
Definition to_uint16 (x : Z) : Z := x mod 65536.

(** Modelled from the spec: [PHYSICAL_REGISTER_ID] is declared in
    [instruction.h], which is not part of the sources at hand.  The design
    notes say that RAT entries are signed 16-bit integers and that [-1]
    stands for "no mapping". *)
Definition PHYSICAL_REGISTER_ID_max : Z := 32767.

(** [static_cast<PHYSICAL_REGISTER_ID>(i)] for an unsigned [i]: the value
    modulo 2^16, read as a signed 16-bit number. *)
Definition to_PHYSICAL_REGISTER_ID (i : Z) : Z := (i + 32768) mod 65536 - 32768.

Definition UNMAPPED : Z := -1.

(** ** Data of [register_allocator.h] *)

Record physical_register := mk_physical_register {
  arch_reg_index : Z;            (* uint16_t *)
  producing_instruction_id : Z;  (* uint64_t *)
  valid : bool;
  busy : bool
}.

Record RenameCheckpoint := mk_RenameCheckpoint {
  arch_reg : Z;       (* int16_t *)
  old_phys_reg : Z;   (* PHYSICAL_REGISTER_ID *)
  new_phys_reg : Z;   (* PHYSICAL_REGISTER_ID *)
  instr_id : Z        (* uint64_t *)
}.

(** Size of both RATs: [std::numeric_limits<uint8_t>::max() + 1]. *)
Definition RAT_SIZE : nat := 256.

Record RegisterAllocator := mk_RegisterAllocator {
  frontend_RAT : list Z;                       (* std::array<PHYSICAL_REGISTER_ID, 256> *)
  backend_RAT : list Z;                        (* std::array<PHYSICAL_REGISTER_ID, 256> *)
  free_registers : list Z;                     (* std::queue, front of the queue first *)
  physical_register_file : list physical_register;  (* std::vector *)
  rename_history : gmap Z (list RenameCheckpoint)   (* std::unordered_map *)
}.

#[global] Instance physical_register_eq_dec : EqDecision physical_register.
Proof. solve_decision. Defined.

#[global] Instance RenameCheckpoint_eq_dec : EqDecision RenameCheckpoint.
Proof. solve_decision. Defined.

(** ** Outcomes of a member function *)

(** The exceptions the code throws. *)
Inductive error :=
  | OutOfRange.      (* [std::out_of_range] thrown by [vector::at] *)

Inductive outcome (A : Type) :=
  | Ok (a : A) (s : RegisterAllocator)
  | Raise (e : error) (s : RegisterAllocator)
  | Undefined    (* out-of-bounds [operator[]], or [front]/[pop] of an empty queue *)
  | Abort (s : RegisterAllocator).
      (* a failed [assert]: the process is terminated by [abort()] and
         nothing returns to the caller; [s] is the object at that moment *)

Arguments Ok {A} a s.
Arguments Raise {A} e s.
Arguments Undefined {A}.
Arguments Abort {A} s.

Definition M (A : Type) : Type := RegisterAllocator -> outcome A.

Definition ret {A} (a : A) : M A := fun s => Ok a s.

Definition bind {A B} (m : M A) (k : A -> M B) : M B :=
  fun s => match m s with
           | Ok a s' => k a s'
           | Raise e s' => Raise e s'
           | Undefined => Undefined
           | Abort s' => Abort s'
           end.

Notation "'let*' x ':=' m 'in' k" := (bind m (fun x => k))
  (at level 10, x name, m at level 100, k at level 200).
Notation "m >> k" := (bind m (fun _ => k))
  (at level 65, right associativity).

(** A valid position of a container of [len] elements, from a C++ index.  A
    negative signed index converts to a huge [size_t], which is never valid. *)
Definition index_of (len : nat) (i : Z) : option nat :=
  if (0 <=? i) && (i <? Z.of_nat len) then Some (Z.to_nat i) else None.

(** *** [std::array::operator[]] on the two RATs *)

Definition frontend_RAT_get (reg : Z) : M Z := fun s =>
  match index_of (length (frontend_RAT s)) reg with
  | Some n => match frontend_RAT s !! n with Some p => Ok p s | None => Undefined end
  | None => Undefined
  end.

Definition frontend_RAT_set (reg : Z) (p : Z) : M unit := fun s =>
  match index_of (length (frontend_RAT s)) reg with
  | Some n =>
      Ok tt (mk_RegisterAllocator (<[n := p]> (frontend_RAT s)) (backend_RAT s)
               (free_registers s) (physical_register_file s) (rename_history s))
  | None => Undefined
  end.

Definition backend_RAT_get (reg : Z) : M Z := fun s =>
  match index_of (length (backend_RAT s)) reg with
  | Some n => match backend_RAT s !! n with Some p => Ok p s | None => Undefined end
  | None => Undefined
  end.

Definition backend_RAT_set (reg : Z) (p : Z) : M unit := fun s =>
  match index_of (length (backend_RAT s)) reg with
  | Some n =>
      Ok tt (mk_RegisterAllocator (frontend_RAT s) (<[n := p]> (backend_RAT s))
               (free_registers s) (physical_register_file s) (rename_history s))
  | None => Undefined
  end.

(** *** [std::queue] operations on the free list *)

Definition free_registers_empty : M bool := fun s =>
  Ok (match free_registers s with [] => true | _ => false end) s.

Definition free_registers_front : M Z := fun s =>
  match free_registers s with
  | p :: _ => Ok p s
  | [] => Undefined
  end.

Definition free_registers_pop : M unit := fun s =>
  match free_registers s with
  | _ :: rest =>
      Ok tt (mk_RegisterAllocator (frontend_RAT s) (backend_RAT s) rest
               (physical_register_file s) (rename_history s))
  | [] => Undefined
  end.

Definition free_registers_push (p : Z) : M unit := fun s =>
  Ok tt (mk_RegisterAllocator (frontend_RAT s) (backend_RAT s) (free_registers s ++ [p])
           (physical_register_file s) (rename_history s)).

(** *** [std::vector] operations on the register file *)

Definition set_physical_register_file (prf : list physical_register) (s : RegisterAllocator)
  : RegisterAllocator :=
  mk_RegisterAllocator (frontend_RAT s) (backend_RAT s) (free_registers s) prf (rename_history s).

(** [physical_register_file.at(i)], read. *)
Definition prf_at (i : Z) : M physical_register := fun s =>
  match index_of (length (physical_register_file s)) i with
  | Some n => match physical_register_file s !! n with Some r => Ok r s | None => Undefined end
  | None => Raise OutOfRange s
  end.

(** [physical_register_file.at(i) = r]. *)
Definition prf_at_assign (i : Z) (r : physical_register) : M unit := fun s =>
  match index_of (length (physical_register_file s)) i with
  | Some n => Ok tt (set_physical_register_file (<[n := r]> (physical_register_file s)) s)
  | None => Raise OutOfRange s
  end.

(** [physical_register_file[i].field = v], written as an update [f] of the slot. *)
Definition prf_index_update (i : Z) (f : physical_register -> physical_register) : M unit := fun s =>
  match index_of (length (physical_register_file s)) i with
  | Some n =>
      match physical_register_file s !! n with
      | Some r => Ok tt (set_physical_register_file (<[n := f r]> (physical_register_file s)) s)
      | None => Undefined
      end
  | None => Undefined
  end.

Definition prf_size : M Z := fun s => Ok (Z.of_nat (length (physical_register_file s))) s.

Definition set_valid (v : bool) (r : physical_register) : physical_register :=
  mk_physical_register (arch_reg_index r) (producing_instruction_id r) v (busy r).
Definition set_busy (v : bool) (r : physical_register) : physical_register :=
  mk_physical_register (arch_reg_index r) (producing_instruction_id r) (valid r) v.
Definition set_arch_reg_index (v : Z) (r : physical_register) : physical_register :=
  mk_physical_register v (producing_instruction_id r) (valid r) (busy r).
Definition set_producing_instruction_id (v : Z) (r : physical_register) : physical_register :=
  mk_physical_register (arch_reg_index r) v (valid r) (busy r).

(** *** [std::unordered_map] operations on the rename history *)

Definition set_rename_history (h : gmap Z (list RenameCheckpoint)) (s : RegisterAllocator)
  : RegisterAllocator :=
  mk_RegisterAllocator (frontend_RAT s) (backend_RAT s) (free_registers s)
    (physical_register_file s) h.

Definition rename_history_find (id : Z) : M (option (list RenameCheckpoint)) := fun s =>
  Ok (rename_history s !! id) s.

Definition rename_history_erase (id : Z) : M unit := fun s =>
  Ok tt (set_rename_history (delete id (rename_history s)) s).

(** [rename_history[id].push_back(c)]: [operator[]] creates an empty vector
    for an absent key. *)
Definition rename_history_push_back (id : Z) (c : RenameCheckpoint) : M unit := fun s =>
  Ok tt (set_rename_history
           (<[id := default [] (rename_history s !! id) ++ [c]]> (rename_history s)) s).

(** ** The member functions of [register_allocator.cc] *)

(** The constructor; [None] when its assertion fails. *)
Definition RegisterAllocator_new (num_physical_registers : nat) : option RegisterAllocator :=
  if Z.of_nat num_physical_registers <=? PHYSICAL_REGISTER_ID_max then
    Some (mk_RegisterAllocator
            (replicate RAT_SIZE (-1))
            (replicate RAT_SIZE (-1))
            (map (fun i => to_PHYSICAL_REGISTER_ID (Z.of_nat i)) (seq 0 num_physical_registers))
            (replicate num_physical_registers (mk_physical_register 0 0 false false))
            ∅)
  else None.

Definition rename_dest_register (reg : Z) (producer_id : Z) : M Z :=
  let* is_empty := free_registers_empty in
  if is_empty then (fun s => Abort s) else   (* assert(!free_registers.empty()) *)
  let* phys_reg := free_registers_front in
  free_registers_pop >>
  frontend_RAT_set reg phys_reg >>
  prf_at_assign phys_reg (mk_physical_register (to_uint16 reg) producer_id false true) >>
  ret phys_reg.

Definition rename_src_register (reg : Z) : M Z :=
  let* phys := frontend_RAT_get reg in
  if phys <? 0 then
    let* phys := free_registers_front in
    free_registers_pop >>
    frontend_RAT_set reg phys >>
    backend_RAT_set reg phys >>
    prf_at_assign phys (mk_physical_register (to_uint16 reg) 0 true true) >>
    ret phys
  else ret phys.

Definition complete_dest_register (physreg : Z) : M unit :=
  let* r := prf_at physreg in
  prf_at_assign physreg (set_valid true r).

Definition free_register (physreg : Z) : M unit :=
  prf_at_assign physreg (mk_physical_register 255 0 false false) >>
  free_registers_push physreg.

Definition retire_dest_register (physreg : Z) : M unit :=
  let* r := prf_at physreg in
  let arch_reg := arch_reg_index r in
  let* old_phys_reg := backend_RAT_get arch_reg in
  backend_RAT_set arch_reg physreg >>
  if negb (old_phys_reg =? -1) then free_register old_phys_reg else ret tt.

Definition isValid (physreg : Z) : M bool :=
  let* r := prf_at physreg in ret (valid r).

Definition isAllocated (archreg : Z) : M bool :=
  let* p := frontend_RAT_get archreg in ret (negb (p =? -1)).

Definition count_free_registers (s : RegisterAllocator) : nat := length (free_registers s).

Definition reset_frontend_RAT : M unit := fun s =>
  Ok tt (mk_RegisterAllocator (backend_RAT s) (backend_RAT s) (free_registers s)
           (physical_register_file s) (rename_history s)).

Definition get_current_mapping (arch_reg : Z) : M Z := fun s =>
  if (arch_reg <? 0) || (Z.of_nat (length (frontend_RAT s)) <=? arch_reg) then Ok (-1) s
  else frontend_RAT_get arch_reg s.

Definition record_rename (instr_id arch_reg old_phys_reg new_phys_reg : Z) : M unit :=
  rename_history_push_back instr_id
    (mk_RenameCheckpoint arch_reg old_phys_reg new_phys_reg instr_id).

(** The body of the loop of [undo_rename], for one checkpoint. *)
Definition undo_checkpoint (checkpoint : RenameCheckpoint) : M unit :=
  frontend_RAT_set (arch_reg checkpoint) (old_phys_reg checkpoint) >>
  let* size := prf_size in
  (if (0 <=? new_phys_reg checkpoint) && (new_phys_reg checkpoint <? size) then
     prf_index_update (new_phys_reg checkpoint) (set_valid false) >>
     prf_index_update (new_phys_reg checkpoint) (set_busy false) >>
     prf_index_update (new_phys_reg checkpoint) (set_arch_reg_index 255) >>
     prf_index_update (new_phys_reg checkpoint) (set_producing_instruction_id 0)
   else ret tt) >>
  free_registers_push (new_phys_reg checkpoint).

(** A range-for over a vector. *)
Fixpoint for_each {A} (body : A -> M unit) (l : list A) : M unit :=
  match l with
  | [] => ret tt
  | x :: l' => body x >> for_each body l'
  end.

Definition undo_rename (instr_id : Z) : M unit :=
  let* it := rename_history_find instr_id in
  match it with
  | None => ret tt
  | Some checkpoints =>
      (* rbegin .. rend: the vector from its last element to its first *)
      for_each undo_checkpoint (rev checkpoints) >>
      rename_history_erase instr_id
  end.

Definition retire_rename (instr_id : Z) : M unit :=
  let* it := rename_history_find instr_id in
  match it with
  | Some _ => rename_history_erase instr_id
  | None => ret tt
  end.

Definition get_producer (phys_reg : Z) : M Z := fun s =>
  match index_of (length (physical_register_file s)) phys_reg with
  | Some n => match physical_register_file s !! n with
              | Some r => Ok (producing_instruction_id r) s
              | None => Undefined
              end
  | None => Ok 0 s
  end.

(** ** Vocabulary of the design document *)

(** An architectural register id: an index into the 256-entry RATs. *)
Definition is_arch_reg (a : Z) : Prop := 0 <= a < Z.of_nat RAT_SIZE.

(** A physical register id of allocator [s]: an index into its register file. *)
Definition is_phys_reg (s : RegisterAllocator) (p : Z) : Prop :=
  0 <= p < Z.of_nat (length (physical_register_file s)).

(** Both RATs have the size their C++ type gives them. *)
Definition RATs_sized (s : RegisterAllocator) : Prop :=
  length (frontend_RAT s) = RAT_SIZE /\ length (backend_RAT s) = RAT_SIZE.

(** A RAT entry is either the sentinel or a (non-negative) register id. *)
Definition RAT_entry_typed (p : Z) : Prop := p = UNMAPPED \/ 0 <= p.

(** The contents [free_register] and [undo_rename] give to a released slot. *)
Definition free_slot : physical_register := mk_physical_register 255 0 false false.

(** The contents the constructor gives to every slot. *)
Definition initial_slot : physical_register := mk_physical_register 0 0 false false.

(** Number of slots of the register file with [busy = true]. *)
Definition count_busy (s : RegisterAllocator) : nat :=
  length (filter (fun r => busy r = true) (physical_register_file s)).

(** The rollback of one checkpoint [(a, old, new)] as the design document
    words it: [frontend_RAT[a] <- old]; [slot[new] <-] the released-slot
    contents, skipped when [new] is not a slot of the register file; push
    [new] onto the free list. *)
Definition undo_one_spec (c : RenameCheckpoint) (s : RegisterAllocator) : RegisterAllocator :=
  mk_RegisterAllocator
    (<[Z.to_nat (arch_reg c) := old_phys_reg c]> (frontend_RAT s))
    (backend_RAT s)
    (free_registers s ++ [new_phys_reg c])
    (if decide (is_phys_reg s (new_phys_reg c))
     then <[Z.to_nat (new_phys_reg c) := free_slot]> (physical_register_file s)
     else physical_register_file s)
    (rename_history s).

(** Rolling back a whole checkpoint vector, last checkpoint first: the
    right fold applies the rollback of the last element to the state, then
    that of the one before it, and the rollback of the first element last. *)
Definition undo_all_spec (checkpoints : list RenameCheckpoint) (s : RegisterAllocator)
  : RegisterAllocator :=
  foldr undo_one_spec s checkpoints.

(** The checkpoints recorded under [id] name valid RAT positions. *)
Definition history_arch_regs_ok (s : RegisterAllocator) (id : Z) : Prop :=
  forall checkpoints c,
    rename_history s !! id = Some checkpoints -> c ∈ checkpoints -> is_arch_reg (arch_reg c).

(** Executable form of [history_arch_regs_ok]. *)
Definition history_arch_regs_okb (s : RegisterAllocator) (id : Z) : bool :=
  match rename_history s !! id with
  | Some checkpoints =>
      forallb (fun c => (0 <=? arch_reg c) && (arch_reg c <? Z.of_nat RAT_SIZE)) checkpoints
  | None => true
  end.

(** A run of destination renames, one per [(arch_reg, producer_id)] request,
    with no retirement in between. *)
Definition rename_dest_all (requests : list (Z * Z)) : M unit :=
  for_each (fun r => rename_dest_register r.1 r.2 >> ret tt) requests.

(** A destination rename as the pipeline performs it (the fused operation
    of the design document): read the current mapping, rename, record the
    checkpoint under the producer's id. *)
Definition rename_dest (a : Z) (id : Z) : M Z :=
  let* old := get_current_mapping a in
  let* p := rename_dest_register a id in
  record_rename id a old p >>
  ret p.

(** The round trip: a recorded destination rename, rolled back at once. *)
Definition rename_then_undo (a : Z) (id : Z) : M unit :=
  rename_dest a id >> undo_rename id.

(** ** Operation sequences *)

Inductive operation :=
  | RenameDest (a id : Z)
  | RenameSrc (a : Z)
  | Complete (p : Z)
  | Retire (p : Z)
  | FreeRegister (p : Z)
  | RecordRename (id a old new : Z)
  | UndoRename (id : Z)
  | RetireRename (id : Z)
  | ResetFrontendRAT.

Definition run_operation (o : operation) : M unit :=
  match o with
  | RenameDest a id => rename_dest_register a id >> ret tt
  | RenameSrc a => rename_src_register a >> ret tt
  | Complete p => complete_dest_register p
  | Retire p => retire_dest_register p
  | FreeRegister p => free_register p
  | RecordRename id a old new => record_rename id a old new
  | UndoRename id => undo_rename id
  | RetireRename id => retire_rename id
  | ResetFrontendRAT => reset_frontend_RAT
  end.

(** The register ids an operation hands to [free_registers.push] when it is
    run in state [s], in the order of the pushes. *)
Definition pushed_by (o : operation) (s : RegisterAllocator) : list Z :=
  match o with
  | FreeRegister p => [p]
  | Retire p =>
      match (let* r := prf_at p in backend_RAT_get (arch_reg_index r)) s with
      | Ok old _ => if negb (old =? -1) then [old] else []
      | _ => []
      end
  | UndoRename id =>
      match rename_history s !! id with
      | Some checkpoints => rev (map new_phys_reg checkpoints)
      | None => []
      end
  | _ => []
  end.

(** The documented precondition of a release: what is pushed onto the free
    list is a physical register id that is not in the free list already,
    neither from before the operation nor from an earlier push of it. *)
Definition legal (o : operation) (s : RegisterAllocator) : Prop :=
  NoDup (pushed_by o s) /\
  Forall (fun p => is_phys_reg s p /\ p ∉ free_registers s) (pushed_by o s).

#[global] Instance is_phys_reg_dec s p : Decision (is_phys_reg s p).
Proof. unfold is_phys_reg. apply _. Defined.

#[global] Instance legal_dec o s : Decision (legal o s).
Proof. unfold legal. apply _. Defined.

(** Running a sequence of operations; [None] as soon as one of them is not
    legal or does not return. *)
Fixpoint run_legal (ops : list operation) (s : RegisterAllocator) : option RegisterAllocator :=
  match ops with
  | [] => Some s
  | o :: ops' =>
      if decide (legal o s) then
        match run_operation o s with
        | Ok _ s' => run_legal ops' s'
        | _ => None
        end
      else None
  end.

(** The free list enumerates, without repetition, the slots that are not
    busy; the last conjunct is the count it implies. *)
Definition free_list_ok (n : nat) (free : list Z) (prf : list physical_register) : Prop :=
  length prf = n /\
  NoDup free /\
  (forall p, p ∈ free <->
             0 <= p < Z.of_nat (length prf) /\
             exists r, prf !! Z.to_nat p = Some r /\ busy r = false) /\
  (length free + length (filter (fun r => busy r = true) prf))%nat = n.

Definition free_list_inv (n : nat) (s : RegisterAllocator) : Prop :=
  free_list_ok n (free_registers s) (physical_register_file s).

(** What one slot contributes to the busy count. *)
Definition busy_weight (r : physical_register) : nat := if busy r then 1%nat else 0%nat.

(** ** Scenario states *)

(** The state a computation ends in ([s] itself when it does not return). *)
Definition final_state {A} (m : M A) (s : RegisterAllocator) : RegisterAllocator :=
  match m s with
  | Ok _ s' => s'
  | _ => s
  end.

(** An allocator with eight physical registers, as in the end-to-end
    scenarios of the design document. *)
Definition allocator8 : RegisterAllocator :=
  default (mk_RegisterAllocator [] [] [] [] ∅) (RegisterAllocator_new 8).

(** Scenario 4: instruction 200 renames architectural register 7 twice. *)
Definition scenario_lifo : RegisterAllocator :=
  final_state (rename_dest 7 200 >> rename_dest 7 200) allocator8.

(** A caller records a checkpoint whose new register, 100, is not a slot of
    the eight-entry register file. *)
Definition scenario_stray : RegisterAllocator :=
  final_state (record_rename 1 3 (-1) 100) allocator8.

(** Architectural register 5 has been renamed twice and the first rename
    has retired; register 1 is about to retire and release register 0. *)
Definition scenario_retire : RegisterAllocator :=
  final_state
    (rename_dest 5 100 >> complete_dest_register 0 >> retire_dest_register 0 >>
     retire_rename 100 >>
     rename_dest 5 101 >> complete_dest_register 1)
    allocator8.

(** Instruction 100 has two destinations; the first one has been renamed. *)
Definition scenario_first_dest : RegisterAllocator :=
  final_state (rename_dest 5 100) allocator8.

(** A run through every kind of operation: two renames of register 5, a
    source read of register 3, retirement of both renames, a squashed rename
    of register 6, a flush, and an explicit release. *)
Definition scenario_run : list operation :=
  [RenameDest 5 100; RecordRename 100 5 (-1) 0; RenameSrc 3; Complete 0;
   RenameDest 5 101; RecordRename 101 5 0 2; Retire 0; RetireRename 100;
   Complete 2; Retire 2;
   RenameDest 6 102; RecordRename 102 6 (-1) 3; UndoRename 102;
   ResetFrontendRAT; FreeRegister 1].

(** ** Trace records of [tracer/pin/trace_reader.cpp] *)

Definition NUM_INSTR_DESTINATIONS_SPARC : Z := 4.
Definition NUM_INSTR_DESTINATIONS : Z := 2.
Definition NUM_INSTR_SOURCES : Z := 4.

Inductive ctype :=
  | unsigned_char
  | unsigned_long_long.

(** Sizes and natural alignments on the 64-bit targets the tracer is built
    for: one byte for [unsigned char], eight for [unsigned long long]. *)
Definition sizeof (t : ctype) : Z :=
  match t with
  | unsigned_char => 1
  | unsigned_long_long => 8
  end.

Definition alignof (t : ctype) : Z := sizeof t.

(** A struct member: a scalar has [member_count = 1], an array its length. *)
Record member := mk_member {
  member_name : string;
  member_type : ctype;
  member_count : Z
}.

Definition member_size (m : member) : Z := member_count m * sizeof (member_type m).

Definition input_instr : list member :=
  [ mk_member "ip" unsigned_long_long 1;
    mk_member "is_branch" unsigned_char 1;
    mk_member "branch_taken" unsigned_char 1;
    mk_member "destination_registers" unsigned_char NUM_INSTR_DESTINATIONS;
    mk_member "source_registers" unsigned_char NUM_INSTR_SOURCES;
    mk_member "destination_memory" unsigned_long_long NUM_INSTR_DESTINATIONS;
    mk_member "source_memory" unsigned_long_long NUM_INSTR_SOURCES ].

Definition cloudsuite_instr : list member :=
  [ mk_member "ip" unsigned_long_long 1;
    mk_member "is_branch" unsigned_char 1;
    mk_member "branch_taken" unsigned_char 1;
    mk_member "destination_registers" unsigned_char NUM_INSTR_DESTINATIONS_SPARC;
    mk_member "source_registers" unsigned_char NUM_INSTR_SOURCES;
    mk_member "destination_memory" unsigned_long_long NUM_INSTR_DESTINATIONS_SPARC;
    mk_member "source_memory" unsigned_long_long NUM_INSTR_SOURCES;
    mk_member "asid" unsigned_char 2 ].

(** Struct layout under [#pragma pack(push, pack)]: a member is aligned to
    the smaller of [pack] and its natural alignment, and the struct is padded
    at its end to the largest member alignment. *)
Definition align_up (offset alignment : Z) : Z :=
  (offset + alignment - 1) / alignment * alignment.

Definition member_align (pack : Z) (m : member) : Z := Z.min pack (alignof (member_type m)).

(** Members with their offsets and sizes, laid out from byte [offset] on. *)
Fixpoint layout_from (pack offset : Z) (ms : list member) : list (string * Z * Z) :=
  match ms with
  | [] => []
  | m :: ms' =>
      let o := align_up offset (member_align pack m) in
      (member_name m, o, member_size m) :: layout_from pack (o + member_size m) ms'
  end.

Fixpoint end_offset (pack offset : Z) (ms : list member) : Z :=
  match ms with
  | [] => offset
  | m :: ms' => end_offset pack (align_up offset (member_align pack m) + member_size m) ms'
  end.

Definition struct_align (pack : Z) (ms : list member) : Z :=
  foldr (fun m a => Z.max (member_align pack m) a) 1 ms.

Definition sizeof_struct (pack : Z) (ms : list member) : Z :=
  align_up (end_offset pack 0 ms) (struct_align pack ms).

(** Sum of the member sizes: the size of a struct without any padding. *)
Definition payload_size (ms : list member) : Z := foldr (fun m a => member_size m + a) 0 ms.

(** [rec_size] of [main]: both structs are declared under [#pragma pack(push, 1)]. *)
Definition rec_size (cloudsuite : bool) : Z :=
  if cloudsuite then sizeof_struct 1 cloudsuite_instr else sizeof_struct 1 input_instr.

(** ** Further member functions and their callers *)

(** [static_cast<int>(x)]: the value modulo 2^32, read as a signed number. *)
Definition to_int (x : Z) : Z := (x + 2147483648) mod 4294967296 - 2147483648.

(** [std::count_if] over a sequence, for a predicate that may throw: the
    elements are tested in order and a failure of the predicate ends the
    count. *)
Fixpoint count_if (pred : Z -> M bool) (l : list Z) : M Z :=
  match l with
  | [] => ret 0
  | x :: l' =>
      let* b := pred x in
      let* n := count_if pred l' in
      ret (if b then n + 1 else n)
  end.

(** Modelled from the spec: [ooo_model_instr] is declared in
    [instruction.h], which is not part of the sources at hand; the design
    document describes its [source_registers] as the instruction's source
    registers after renaming, a sequence of physical register ids.  The
    function is given that sequence. *)
Definition count_reg_dependencies (source_registers : list Z) : M Z :=
  let* n := count_if (fun reg => let* v := isValid reg in ret (negb v)) source_registers in
  ret (to_int n).

(** What [validate_state] prints, one constructor per error message. *)
Inductive validation_error :=
  | DuplicateInFreeList (phys : Z)
  | FreeButValidOrBusy (phys : Z)
  | AllocatedButFree (instr_id : Z) (phys : Z).

(** The first loop of [validate_state]: the copy of the free queue is
    drained while [free_set] collects what has been seen. *)
Fixpoint validate_free_list (prf : list physical_register) (temp_queue : list Z)
    (free_set : gset Z) : list validation_error * gset Z :=
  match temp_queue with
  | [] => ([], free_set)
  | phys :: rest =>
      let duplicate :=
        if decide (phys ∈ free_set) then [DuplicateInFreeList phys] else [] in
      let in_use :=
        match index_of (length prf) phys with
        | Some n =>
            match prf !! n with
            | Some r => if valid r || busy r then [FreeButValidOrBusy phys] else []
            | None => []
            end
        | None => []
        end in
      let '(errors, final_set) := validate_free_list prf rest ({[phys]} ∪ free_set) in
      (duplicate ++ in_use ++ errors, final_set)
  end.

(** The second loop: every checkpoint of every history entry, the entries
    in an iteration order of the map. *)
Definition validate_history (free_set : gset Z) (h : gmap Z (list RenameCheckpoint))
  : list validation_error :=
  concat (map (fun entry : Z * list RenameCheckpoint =>
                 concat (map (fun cp =>
                                if decide (new_phys_reg cp ∈ free_set)
                                then [AllocatedButFree entry.1 (new_phys_reg cp)]
                                else [])
                           entry.2))
            (map_to_list h)).

Definition validate_state (s : RegisterAllocator) : list validation_error :=
  let '(errors, free_set) :=
    validate_free_list (physical_register_file s) (free_registers s) ∅ in
  errors ++ validate_history free_set (rename_history s).

(** Destination renames in a row, collecting the registers they return. *)
Fixpoint rename_dest_collect (requests : list (Z * Z)) : M (list Z) :=
  match requests with
  | [] => ret []
  | r :: requests' =>
      let* p := rename_dest_register r.1 r.2 in
      let* ps := rename_dest_collect requests' in
      ret (p :: ps)
  end.

(** Successive [record_rename] calls for one instruction, one per
    [(arch_reg, old_phys_reg, new_phys_reg)] triple. *)
Definition record_rename_all (instr_id : Z) (triples : list (Z * Z * Z)) : M unit :=
  for_each (fun t => record_rename instr_id t.1.1 t.1.2 t.2) triples.

(** A squashed region: the instructions are renamed in program order (one
    destination each) and rolled back youngest first. *)
Definition rename_then_squash (requests : list (Z * Z)) : M unit :=
  for_each (fun r => rename_dest r.1 r.2 >> ret tt) requests >>
  for_each undo_rename (rev (map snd requests)).

(** Storing the released-slot contents at each of the given registers, the
    last of the list first. *)
Definition release_slots (ps : list Z) (prf : list physical_register)
  : list physical_register :=
  foldr (fun p acc => <[Z.to_nat p := free_slot]> acc) prf ps.

(** The [valid] flag of slot [p], [false] where there is no such slot. *)
Definition slot_valid (s : RegisterAllocator) (p : Z) : bool :=
  match physical_register_file s !! Z.to_nat p with
  | Some r => valid r
  | None => false
  end.

(** The stray id 100 of [scenario_stray] has been pushed by [undo_rename]
    and, after eight destination renames, stands at the front of the free
    list. *)
Definition scenario_stray_front : RegisterAllocator :=
  final_state
    (undo_rename 1 >>
     rename_dest_all [(1, 10); (2, 11); (3, 12); (4, 13); (5, 14); (6, 15); (7, 16); (8, 17)])
    scenario_stray.

(** ** The reading loop and the printing of [tracer/pin/trace_reader.cpp] *)

(** One of the eight loops of [main] that print an array of a record between
    brackets: the entries that are not zero, each written with [show] (the
    decimal rendering of [(int)] for registers, [to_hex] for addresses), a
    comma before every entry but the first.  [out] is the text written to
    [std::cout] so far. *)
Fixpoint print_nonzero (show : Z -> string) (xs : list Z) (any : bool) (out : string) : string :=
  match xs with
  | [] => out
  | x :: xs' =>
      if negb (x =? 0) then
        let out := if any then out +:+ "," else out in
        print_nonzero show xs' true (out +:+ show x)
      else print_nonzero show xs' any out
  end.

Definition print_array (label : string) (show : Z -> string) (xs : list Z) (out : string)
  : string :=
  print_nonzero show xs false (out +:+ "  " +:+ label +:+ "=[") +:+ "]".

(** The input stream: the bytes not yet read and the two state bits the
    program looks at.  A stream over a given byte sequence has no read
    errors, so [badbit] is left out. *)
Record istream := mk_istream {
  remaining : list Z;
  eofbit : bool;
  failbit : bool
}.

(** [in.read(buf, n)]: nothing is read from a stream that is not good; when
    fewer than [n] bytes are left they are all consumed and both bits are
    set; otherwise [n] bytes move to the buffer. *)
Definition istream_read (n : nat) (st : istream) : list Z * istream :=
  if eofbit st || failbit st then ([], mk_istream (remaining st) (eofbit st) true)
  else if decide (n <= length (remaining st))%nat
       then (take n (remaining st), mk_istream (drop n (remaining st)) false false)
       else (remaining st, mk_istream [] true true).

(** [while (in.read(buf.data(), rec_size)) { ++count; ... }]: the records
    handed to the printing code are collected in [records]; [count] is a
    [uint64_t].  [fuel] bounds the number of iterations. *)
Fixpoint read_records (fuel : nat) (size : nat) (st : istream) (count : Z)
    (records : list (list Z)) : istream * Z * list (list Z) :=
  match fuel with
  | O => (st, count, records)
  | S fuel' =>
      let '(buf, st') := istream_read size st in
      if failbit st' then (st', count, records)
      else read_records fuel' size st' ((count + 1) mod 18446744073709551616) (records ++ [buf])
  end.

(** The run of [main] on a trace of the given bytes: the records printed,
    the final [count], and whether the epilogue prints the warning
    ([!in.eof()]) instead of the record count. *)
Definition read_trace (cloudsuite : bool) (bytes : list Z) (fuel : nat)
  : list (list Z) * Z * bool :=
  let '(st, count, records) :=
    read_records fuel (Z.to_nat (rec_size cloudsuite)) (mk_istream bytes false false) 0 [] in
  (records, count, negb (eofbit st)).

(** Eight destination renames on the eight-register allocator, without
    retirement: the free list is used up. *)
Definition scenario_exhausted : RegisterAllocator :=
  final_state
    (rename_dest_all
       [(5, 100); (6, 101); (5, 102); (7, 103); (1, 104); (2, 105); (3, 106); (4, 107)])
    allocator8.

(** Architectural register 3 has been renamed to register 0; then a caller
    files, under instruction 1, a checkpoint for register 3 whose new
    register, 100, is no slot and whose old mapping is [-1]. *)
Definition scenario_stray_mapped : RegisterAllocator :=
  final_state (rename_dest 3 50 >> record_rename 1 3 (-1) 100) allocator8.

(** * Properties *)

(** ** Equations of the container operations *)

Lemma index_of_Some len i :
  0 <= i < Z.of_nat len -> index_of len i = Some (Z.to_nat i).
Proof.
  intros [H0 H1]. unfold index_of.
  destruct (Z.leb_spec 0 i); [|lia]. destruct (Z.ltb_spec i (Z.of_nat len)); [|lia].
  reflexivity.
Qed.

Lemma index_of_None len i :
  ~ (0 <= i < Z.of_nat len) -> index_of len i = None.
Proof.
  intros H. unfold index_of.
  destruct (Z.leb_spec 0 i); simpl; [|reflexivity].
  destruct (Z.ltb_spec i (Z.of_nat len)); [lia|reflexivity].
Qed.

Lemma index_of_inv len i n :
  index_of len i = Some n -> 0 <= i < Z.of_nat len /\ n = Z.to_nat i.
Proof.
  unfold index_of.
  destruct (Z.leb_spec 0 i); simpl; [|discriminate].
  destruct (Z.ltb_spec i (Z.of_nat len)); [|discriminate].
  intros [= <-]. lia.
Qed.

Lemma lookup_index {A} (l : list A) (i : Z) (x : A) :
  0 <= i -> l !! Z.to_nat i = Some x -> 0 <= i < Z.of_nat (length l).
Proof. intros H0 Hl. apply lookup_lt_Some in Hl. lia. Qed.

Lemma index_lookup {A} (l : list A) (i : Z) :
  0 <= i < Z.of_nat (length l) -> exists x, l !! Z.to_nat i = Some x.
Proof.
  intros H. destruct (lookup_lt_is_Some_2 l (Z.to_nat i)) as [x Hx]; [lia|eauto].
Qed.

Lemma frontend_RAT_get_eq s reg p :
  0 <= reg -> frontend_RAT s !! Z.to_nat reg = Some p -> frontend_RAT_get reg s = Ok p s.
Proof.
  intros H0 Hl. unfold frontend_RAT_get.
  rewrite index_of_Some by eauto using lookup_index. by rewrite Hl.
Qed.

Lemma backend_RAT_get_eq s reg p :
  0 <= reg -> backend_RAT s !! Z.to_nat reg = Some p -> backend_RAT_get reg s = Ok p s.
Proof.
  intros H0 Hl. unfold backend_RAT_get.
  rewrite index_of_Some by eauto using lookup_index. by rewrite Hl.
Qed.

Lemma frontend_RAT_set_eq s reg p :
  0 <= reg < Z.of_nat (length (frontend_RAT s)) ->
  frontend_RAT_set reg p s =
    Ok tt (mk_RegisterAllocator (<[Z.to_nat reg := p]> (frontend_RAT s)) (backend_RAT s)
             (free_registers s) (physical_register_file s) (rename_history s)).
Proof. intros H. unfold frontend_RAT_set. by rewrite index_of_Some. Qed.

Lemma backend_RAT_set_eq s reg p :
  0 <= reg < Z.of_nat (length (backend_RAT s)) ->
  backend_RAT_set reg p s =
    Ok tt (mk_RegisterAllocator (frontend_RAT s) (<[Z.to_nat reg := p]> (backend_RAT s))
             (free_registers s) (physical_register_file s) (rename_history s)).
Proof. intros H. unfold backend_RAT_set. by rewrite index_of_Some. Qed.

Lemma prf_at_eq s i r :
  0 <= i -> physical_register_file s !! Z.to_nat i = Some r -> prf_at i s = Ok r s.
Proof.
  intros H0 Hl. unfold prf_at.
  rewrite index_of_Some by eauto using lookup_index. by rewrite Hl.
Qed.

Lemma prf_at_assign_eq s i r :
  is_phys_reg s i ->
  prf_at_assign i r s =
    Ok tt (set_physical_register_file (<[Z.to_nat i := r]> (physical_register_file s)) s).
Proof. intros H. unfold prf_at_assign. by rewrite index_of_Some. Qed.

Lemma prf_at_assign_raise s i r :
  ~ is_phys_reg s i -> prf_at_assign i r s = Raise OutOfRange s.
Proof. intros H. unfold prf_at_assign. by rewrite index_of_None. Qed.

Lemma prf_index_update_eq s i f r :
  0 <= i -> physical_register_file s !! Z.to_nat i = Some r ->
  prf_index_update i f s =
    Ok tt (set_physical_register_file (<[Z.to_nat i := f r]> (physical_register_file s)) s).
Proof.
  intros H0 Hl. unfold prf_index_update.
  rewrite index_of_Some by eauto using lookup_index. by rewrite Hl.
Qed.

(** The four field assignments of [undo_rename] amount to storing the
    released-slot contents. *)
Lemma reset_fields_free_slot r :
  set_producing_instruction_id 0 (set_arch_reg_index 255 (set_busy false (set_valid false r)))
  = free_slot.
Proof. reflexivity. Qed.

(** ** The loop of [undo_rename] *)

Lemma for_each_app {A} (body : A -> M unit) (l1 l2 : list A) s :
  for_each body (l1 ++ l2) s = (for_each body l1 >> for_each body l2) s.
Proof.
  revert s. induction l1 as [|x l1 IH]; intros s; simpl.
  - reflexivity.
  - unfold bind in *. destruct (body x s) as [[] s'| | |]; try reflexivity.
    apply IH.
Qed.

Lemma undo_checkpoint_eq c s :
  0 <= arch_reg c < Z.of_nat (length (frontend_RAT s)) ->
  undo_checkpoint c s = Ok tt (undo_one_spec c s).
Proof.
  intros Ha. unfold undo_checkpoint, bind.
  rewrite frontend_RAT_set_eq by done. unfold prf_size; cbn [physical_register_file].
  unfold undo_one_spec.
  destruct (decide (is_phys_reg s (new_phys_reg c))) as [Hp|Hp].
  - destruct Hp as [H0 H1].
    destruct (Z.leb_spec 0 (new_phys_reg c)); [|lia].
    destruct (Z.ltb_spec (new_phys_reg c) (Z.of_nat (length (physical_register_file s)))); [|lia].
    cbn [andb].
    destruct (index_lookup (physical_register_file s) (new_phys_reg c)) as [r Hr]; [lia|].
    erewrite prf_index_update_eq; [|done|cbn; exact Hr].
    erewrite prf_index_update_eq;
      [|done|cbn; apply list_lookup_insert_eq; by eapply lookup_lt_Some].
    erewrite prf_index_update_eq;
      [|done|cbn; apply list_lookup_insert_eq; rewrite length_insert; by eapply lookup_lt_Some].
    erewrite prf_index_update_eq;
      [|done|cbn; apply list_lookup_insert_eq; rewrite !length_insert; by eapply lookup_lt_Some].
    cbn. rewrite !list_insert_insert_eq. reflexivity.
  - assert ((0 <=? new_phys_reg c)
            && (new_phys_reg c <? Z.of_nat (length (physical_register_file s))) = false) as ->.
    { unfold is_phys_reg in Hp.
      destruct (Z.leb_spec 0 (new_phys_reg c)); [|done].
      destruct (Z.ltb_spec (new_phys_reg c) (Z.of_nat (length (physical_register_file s))));
        [lia|done]. }
    reflexivity.
Qed.

Lemma undo_one_spec_frontend_length c s :
  length (frontend_RAT (undo_one_spec c s)) = length (frontend_RAT s).
Proof. cbn. apply length_insert. Qed.

Lemma undo_one_spec_prf_length c s :
  length (physical_register_file (undo_one_spec c s)) = length (physical_register_file s).
Proof. cbn. case_decide; [apply length_insert|done]. Qed.

Lemma undo_all_spec_frontend_length cps s :
  length (frontend_RAT (undo_all_spec cps s)) = length (frontend_RAT s).
Proof.
  induction cps as [|c cps IH]; [done|].
  cbn [undo_all_spec foldr]. rewrite undo_one_spec_frontend_length. exact IH.
Qed.

Lemma undo_all_spec_prf_length cps s :
  length (physical_register_file (undo_all_spec cps s)) = length (physical_register_file s).
Proof.
  induction cps as [|c cps IH]; [done|].
  cbn [undo_all_spec foldr]. rewrite undo_one_spec_prf_length. exact IH.
Qed.

Lemma undo_all_spec_backend cps s :
  backend_RAT (undo_all_spec cps s) = backend_RAT s.
Proof. induction cps as [|c cps IH]; [done|exact IH]. Qed.

Lemma undo_all_spec_history cps s :
  rename_history (undo_all_spec cps s) = rename_history s.
Proof. induction cps as [|c cps IH]; [done|exact IH]. Qed.

Lemma undo_all_spec_free cps s :
  free_registers (undo_all_spec cps s) = free_registers s ++ rev (map new_phys_reg cps).
Proof.
  induction cps as [|c cps IH]; cbn [undo_all_spec foldr map rev].
  - by rewrite app_nil_r.
  - cbn [undo_one_spec free_registers]. unfold undo_all_spec in IH. rewrite IH.
    by rewrite app_assoc.
Qed.

(** The reverse iteration of the source computes the right fold. *)
Lemma undo_loop_eq cps s :
  (forall c, c ∈ cps -> 0 <= arch_reg c < Z.of_nat (length (frontend_RAT s))) ->
  for_each undo_checkpoint (rev cps) s = Ok tt (undo_all_spec cps s).
Proof.
  induction cps as [|c cps IH]; intros Hok.
  - reflexivity.
  - cbn [rev]. rewrite for_each_app. unfold bind at 1.
    rewrite IH by (intros c' Hc'; apply Hok, elem_of_cons; by right).
    cbn [for_each]. unfold bind. rewrite undo_checkpoint_eq.
    + reflexivity.
    + rewrite undo_all_spec_frontend_length. apply Hok, elem_of_cons. by left.
Qed.

Lemma undo_rename_absent s id :
  rename_history s !! id = None -> undo_rename id s = Ok tt s.
Proof.
  intros H. unfold undo_rename, bind, rename_history_find. by rewrite H.
Qed.

Lemma undo_rename_present s id cps :
  rename_history s !! id = Some cps ->
  (forall c, c ∈ cps -> 0 <= arch_reg c < Z.of_nat (length (frontend_RAT s))) ->
  undo_rename id s
  = Ok tt (set_rename_history (delete id (rename_history s)) (undo_all_spec cps s)).
Proof.
  intros H Hok. unfold undo_rename, bind at 1, rename_history_find. rewrite H.
  unfold bind. rewrite undo_loop_eq by done. unfold rename_history_erase.
  by rewrite undo_all_spec_history.
Qed.

Lemma undo_checkpoint_Ok_inv c s u s' :
  undo_checkpoint c s = Ok u s' -> s' = undo_one_spec c s.
Proof.
  intros H.
  destruct (index_of (length (frontend_RAT s)) (arch_reg c)) as [n|] eqn:E.
  - apply index_of_inv in E as [E _]. rewrite undo_checkpoint_eq in H by done. congruence.
  - unfold undo_checkpoint, bind, frontend_RAT_set in H. rewrite E in H. discriminate.
Qed.

Lemma undo_loop_backend l s u s' :
  for_each undo_checkpoint l s = Ok u s' -> backend_RAT s' = backend_RAT s.
Proof.
  revert s. induction l as [|c l IH]; intros s H; cbn [for_each] in H.
  - unfold ret in H. congruence.
  - unfold bind in H. destruct (undo_checkpoint c s) as [[] s1| | |] eqn:E; try discriminate.
    apply undo_checkpoint_Ok_inv in E as ->. by rewrite (IH _ H).
Qed.

Lemma is_phys_reg_undo_all_spec cps s p :
  is_phys_reg (undo_all_spec cps s) p <-> is_phys_reg s p.
Proof. unfold is_phys_reg. by rewrite undo_all_spec_prf_length. Qed.

Lemma undo_all_spec_slot_reset cps s c :
  c ∈ cps -> is_phys_reg s (new_phys_reg c) ->
  physical_register_file (undo_all_spec cps s) !! Z.to_nat (new_phys_reg c) = Some free_slot.
Proof.
  intros Hin Hp. induction cps as [|c0 cps IH]; [by apply elem_of_nil in Hin|].
  cbn [undo_all_spec foldr]. fold (undo_all_spec cps s).
  cbn [undo_one_spec physical_register_file].
  apply elem_of_cons in Hin as [->|Hin].
  - rewrite decide_True by by apply is_phys_reg_undo_all_spec.
    apply list_lookup_insert_eq. rewrite undo_all_spec_prf_length.
    destruct Hp. lia.
  - specialize (IH Hin). case_decide; [|done].
    destruct (decide (Z.to_nat (new_phys_reg c0) = Z.to_nat (new_phys_reg c))) as [->|Hne].
    + apply list_lookup_insert_eq. by eapply lookup_lt_Some.
    + by rewrite list_lookup_insert_ne.
Qed.

Lemma undo_all_spec_slot_other cps s n :
  (forall c, c ∈ cps -> is_phys_reg s (new_phys_reg c) -> Z.to_nat (new_phys_reg c) <> n) ->
  physical_register_file (undo_all_spec cps s) !! n = physical_register_file s !! n.
Proof.
  induction cps as [|c0 cps IH]; intros Hn; [done|].
  cbn [undo_all_spec foldr]. fold (undo_all_spec cps s).
  cbn [undo_one_spec physical_register_file].
  assert (physical_register_file (undo_all_spec cps s) !! n = physical_register_file s !! n)
    as IH' by (apply IH; intros c Hc; apply Hn, elem_of_cons; by right).
  case_decide as Hp; [|done].
  rewrite list_lookup_insert_ne; [done|].
  apply Hn; [apply elem_of_cons; by left|by apply (is_phys_reg_undo_all_spec cps s)].
Qed.

Lemma undo_all_spec_frontend_earliest pre c post s :
  (forall c', c' ∈ pre ++ c :: post ->
              0 <= arch_reg c' < Z.of_nat (length (frontend_RAT s))) ->
  (forall c', c' ∈ pre -> arch_reg c' <> arch_reg c) ->
  frontend_RAT (undo_all_spec (pre ++ c :: post) s) !! Z.to_nat (arch_reg c)
  = Some (old_phys_reg c).
Proof.
  induction pre as [|c0 pre IH]; intros Hok Hne.
  - cbn. apply list_lookup_insert_eq.
    fold (undo_all_spec post s). rewrite undo_all_spec_frontend_length.
    assert (0 <= arch_reg c < Z.of_nat (length (frontend_RAT s)))
      by (apply Hok; cbn; apply elem_of_cons; by left).
    lia.
  - cbn [app undo_all_spec foldr]. fold (undo_all_spec (pre ++ c :: post) s).
    cbn [undo_one_spec frontend_RAT].
    rewrite list_lookup_insert_ne.
    + apply IH.
      * intros c' Hc'. apply Hok. cbn. apply elem_of_cons. by right.
      * intros c' Hc'. apply Hne, elem_of_cons. by right.
    + assert (arch_reg c0 <> arch_reg c) by (apply Hne, elem_of_cons; by left).
      assert (0 <= arch_reg c0) by (apply Hok; cbn; apply elem_of_cons; by left).
      assert (0 <= arch_reg c)
        by (apply Hok, elem_of_app; right; apply elem_of_cons; by left).
      lia.
Qed.

Lemma history_arch_regs_in_range s id cps :
  RATs_sized s -> history_arch_regs_ok s id -> rename_history s !! id = Some cps ->
  forall c, c ∈ cps -> 0 <= arch_reg c < Z.of_nat (length (frontend_RAT s)).
Proof.
  intros [Hf _] Hok Hcps c Hc. rewrite Hf. exact (Hok cps c Hcps Hc).
Qed.

Lemma history_arch_regs_okb_sound s id :
  history_arch_regs_okb s id = true -> history_arch_regs_ok s id.
Proof.
  unfold history_arch_regs_okb, history_arch_regs_ok. intros H cps c Hcps Hc.
  rewrite Hcps in H. rewrite forallb_forall in H.
  apply list_elem_of_In, H in Hc. unfold is_arch_reg.
  apply andb_prop in Hc as [H0 H1]. lia.
Qed.

(** ** Rolling back the renames of one instruction *)

(** C1. [undo_rename id] on an instruction with recorded checkpoints returns
    the state obtained by rolling the checkpoints back last-to-first: each
    rollback stores [old] in [frontend_RAT[a]], stores the released-slot
    contents in [slot[new]] and pushes [new] on the free list (so the pushes
    appear in reverse recording order), and the history entry is deleted.
    The earliest checkpoint of an architectural register decides its final
    frontend mapping.  Without a history entry the call changes nothing. *)
Theorem undo_rename_LIFO (s : RegisterAllocator) (id : Z) :
  RATs_sized s -> history_arch_regs_ok s id ->
  (rename_history s !! id = None -> undo_rename id s = Ok tt s) /\
  (forall cps, rename_history s !! id = Some cps ->
     exists s',
       undo_rename id s = Ok tt s' /\
       s' = set_rename_history (delete id (rename_history s)) (undo_all_spec cps s) /\
       free_registers s' = free_registers s ++ rev (map new_phys_reg cps) /\
       rename_history s' = delete id (rename_history s) /\
       (forall c, c ∈ cps -> is_phys_reg s (new_phys_reg c) ->
                  physical_register_file s' !! Z.to_nat (new_phys_reg c) = Some free_slot) /\
       (forall c, c ∈ cps -> new_phys_reg c ∈ free_registers s') /\
       (forall pre c post,
           cps = pre ++ c :: post ->
           (forall c', c' ∈ pre -> arch_reg c' <> arch_reg c) ->
           frontend_RAT s' !! Z.to_nat (arch_reg c) = Some (old_phys_reg c))).
Proof.
  intros Hsz Hok. split; [apply undo_rename_absent|].
  intros cps Hcps.
  pose proof (history_arch_regs_in_range s id cps Hsz Hok Hcps) as Hrange.
  eexists. split; [by apply undo_rename_present|].
  split; [reflexivity|].
  cbn [set_rename_history free_registers rename_history physical_register_file frontend_RAT].
  split; [apply undo_all_spec_free|].
  split; [reflexivity|].
  split; [intros c Hc Hp; by apply undo_all_spec_slot_reset|].
  split.
  - intros c Hc. rewrite undo_all_spec_free. apply elem_of_app. right.
    apply list_elem_of_In, in_rev. rewrite rev_involutive.
    apply in_map. by apply list_elem_of_In.
  - intros pre c post -> Hne. by apply undo_all_spec_frontend_earliest.
Qed.

Lemma undo_rename_LIFO_witness :
  RATs_sized scenario_lifo /\ history_arch_regs_ok scenario_lifo 200 /\
  exists s', undo_rename 200 scenario_lifo = Ok tt s' /\
             frontend_RAT s' !! 7%nat = Some UNMAPPED /\
             free_registers s' = [2; 3; 4; 5; 6; 7; 1; 0].
Proof.
  assert (RATs_sized scenario_lifo) as Hsz by (split; vm_compute; reflexivity).
  assert (history_arch_regs_ok scenario_lifo 200) as Hok
      by (apply history_arch_regs_okb_sound; vm_compute; reflexivity).
  split; [exact Hsz|]. split; [exact Hok|].
  destruct (undo_rename_LIFO scenario_lifo 200 Hsz Hok) as [_ H].
  destruct (H [mk_RenameCheckpoint 7 (-1) 0 200; mk_RenameCheckpoint 7 0 1 200])
    as (s' & Hrun & _ & Hfree & _ & _ & _ & Hfront); [vm_compute; reflexivity|].
  exists s'. split; [exact Hrun|]. split.
  - apply (Hfront [] (mk_RenameCheckpoint 7 (-1) 0 200) [mk_RenameCheckpoint 7 0 1 200]).
    + reflexivity.
    + intros c' Hc'. by apply elem_of_nil in Hc'.
  - rewrite Hfree. vm_compute. reflexivity.
Defined.

(** C7. [undo_rename] never writes the backend RAT: whenever it returns, the
    backend RAT is what it was, and it does return whenever the recorded
    architectural registers are RAT positions. *)
Theorem undo_rename_backend_RAT (s : RegisterAllocator) (id : Z) :
  (forall u s', undo_rename id s = Ok u s' -> backend_RAT s' = backend_RAT s) /\
  (RATs_sized s -> history_arch_regs_ok s id ->
   exists s', undo_rename id s = Ok tt s' /\ backend_RAT s' = backend_RAT s).
Proof.
  assert (forall u s', undo_rename id s = Ok u s' -> backend_RAT s' = backend_RAT s) as Hframe.
  { intros u s' H. unfold undo_rename, bind at 1, rename_history_find in H.
    destruct (rename_history s !! id) as [cps|].
    - unfold bind in H.
      destruct (for_each undo_checkpoint (rev cps) s) as [[] s1| | |] eqn:E;
        try discriminate.
      apply undo_loop_backend in E. unfold rename_history_erase in H.
      injection H as _ <-. exact E.
    - unfold ret in H. congruence. }
  split; [exact Hframe|].
  intros Hsz Hok. destruct (rename_history s !! id) as [cps|] eqn:Hcps.
  - pose proof (history_arch_regs_in_range s id cps Hsz Hok Hcps) as Hrange.
    eexists. split; [by apply undo_rename_present|]. cbn. apply undo_all_spec_backend.
  - exists s. split; [by apply undo_rename_absent|reflexivity].
Qed.

Lemma undo_rename_backend_RAT_witness :
  RATs_sized scenario_lifo /\ history_arch_regs_ok scenario_lifo 200 /\
  exists s', undo_rename 200 scenario_lifo = Ok tt s' /\
             backend_RAT s' = backend_RAT scenario_lifo.
Proof.
  assert (RATs_sized scenario_lifo) as Hsz by (split; vm_compute; reflexivity).
  assert (history_arch_regs_ok scenario_lifo 200) as Hok
      by (apply history_arch_regs_okb_sound; vm_compute; reflexivity).
  split; [exact Hsz|]. split; [exact Hok|].
  exact (proj2 (undo_rename_backend_RAT scenario_lifo 200) Hsz Hok).
Defined.

Lemma undo_all_spec_frontend_other cps s n :
  (forall c, c ∈ cps -> Z.to_nat (arch_reg c) <> n) ->
  frontend_RAT (undo_all_spec cps s) !! n = frontend_RAT s !! n.
Proof.
  induction cps as [|c0 cps IH]; intros Hn; [done|].
  cbn [undo_all_spec foldr]. fold (undo_all_spec cps s).
  cbn [undo_one_spec frontend_RAT].
  rewrite list_lookup_insert_ne by (apply Hn, elem_of_cons; by left).
  apply IH. intros c Hc. apply Hn, elem_of_cons. by right.
Qed.

(** C10. A checkpoint whose new register is not a slot of the register file
    loses only its slot reset.  [undo_rename] returns the state of the
    last-to-first rollback in which every checkpoint, whatever its range,
    has its old mapping written to the frontend RAT (the earliest checkpoint
    of an architectural register deciding) and its new register pushed on
    the free list; the history entry is deleted and the backend RAT left
    alone.  So the free count grows by the number of checkpoints, ids that
    are no register-file index enter the free list, and the only slots that
    change are those named by in-range checkpoints. *)
Theorem undo_rename_out_of_range (s : RegisterAllocator) (id : Z)
    (cps : list RenameCheckpoint) :
  RATs_sized s -> history_arch_regs_ok s id -> rename_history s !! id = Some cps ->
  exists s',
    undo_rename id s = Ok tt s' /\
    s' = set_rename_history (delete id (rename_history s)) (undo_all_spec cps s) /\
    count_free_registers s' = (count_free_registers s + length cps)%nat /\
    free_registers s' = free_registers s ++ rev (map new_phys_reg cps) /\
    length (physical_register_file s') = length (physical_register_file s) /\
    (forall c, c ∈ cps -> ~ is_phys_reg s (new_phys_reg c) ->
               new_phys_reg c ∈ free_registers s' /\ ~ is_phys_reg s' (new_phys_reg c)) /\
    (forall n, (forall c, c ∈ cps -> is_phys_reg s (new_phys_reg c) ->
                          Z.to_nat (new_phys_reg c) <> n) ->
               physical_register_file s' !! n = physical_register_file s !! n) /\
    ((forall c, c ∈ cps -> ~ is_phys_reg s (new_phys_reg c)) ->
     physical_register_file s' = physical_register_file s) /\
    (forall pre c post,
        cps = pre ++ c :: post ->
        (forall c', c' ∈ pre -> arch_reg c' <> arch_reg c) ->
        frontend_RAT s' !! Z.to_nat (arch_reg c) = Some (old_phys_reg c)) /\
    (forall n, (forall c, c ∈ cps -> Z.to_nat (arch_reg c) <> n) ->
               frontend_RAT s' !! n = frontend_RAT s !! n) /\
    rename_history s' = delete id (rename_history s) /\
    rename_history s' !! id = None /\
    backend_RAT s' = backend_RAT s.
Proof.
  intros Hsz Hok Hcps.
  pose proof (history_arch_regs_in_range s id cps Hsz Hok Hcps) as Hrange.
  eexists. split; [by apply undo_rename_present|].
  split; [reflexivity|].
  unfold count_free_registers.
  cbn [set_rename_history free_registers rename_history physical_register_file
       frontend_RAT backend_RAT].
  rewrite undo_all_spec_free, undo_all_spec_prf_length.
  split; [by rewrite length_app, length_rev, length_map|].
  split; [reflexivity|]. split; [reflexivity|].
  split; [|split; [|split; [|split; [|split]]]].
  - intros c Hc Hp. split.
    + apply elem_of_app. right. apply list_elem_of_In, in_rev. rewrite rev_involutive.
      apply in_map. by apply list_elem_of_In.
    + unfold is_phys_reg in *.
      cbn [set_rename_history physical_register_file].
      by rewrite undo_all_spec_prf_length.
  - intros n Hn. by apply undo_all_spec_slot_other.
  - intros Hout. apply list_eq. intros n. apply undo_all_spec_slot_other.
    intros c Hc Hp. by destruct (Hout c Hc).
  - intros pre c post -> Hne. by apply undo_all_spec_frontend_earliest.
  - intros n Hn. by apply undo_all_spec_frontend_other.
  - split; [reflexivity|]. split; [apply lookup_delete_eq|apply undo_all_spec_backend].
Qed.

Lemma undo_rename_out_of_range_witness :
  RATs_sized scenario_stray_mapped /\ history_arch_regs_ok scenario_stray_mapped 1 /\
  frontend_RAT scenario_stray_mapped !! 3%nat = Some 0 /\
  exists s', undo_rename 1 scenario_stray_mapped = Ok tt s' /\
             frontend_RAT s' !! 3%nat = Some (-1) /\
             rename_history s' !! 1 = None /\
             count_free_registers s' = 8%nat /\
             100 ∈ free_registers s' /\ ~ is_phys_reg s' 100 /\
             physical_register_file s' = physical_register_file scenario_stray_mapped.
Proof.
  assert (RATs_sized scenario_stray_mapped) as Hsz by (split; vm_compute; reflexivity).
  assert (history_arch_regs_ok scenario_stray_mapped 1) as Hok
      by (apply history_arch_regs_okb_sound; vm_compute; reflexivity).
  split; [exact Hsz|]. split; [exact Hok|]. split; [reflexivity|].
  destruct (undo_rename_out_of_range scenario_stray_mapped 1
              [mk_RenameCheckpoint 3 (-1) 100 1] Hsz Hok)
    as (s' & Hrun & _ & Hcount & _ & _ & Hstray & _ & Hprf & Hfront & _ & _ & Hnone & _);
    [vm_compute; reflexivity|].
  assert (~ is_phys_reg scenario_stray_mapped 100) as Hout
      by (vm_compute; intros [_ H]; discriminate H).
  exists s'. split; [exact Hrun|].
  split.
  { apply (Hfront [] (mk_RenameCheckpoint 3 (-1) 100 1) []); [reflexivity|].
    intros c' Hc'. by apply elem_of_nil in Hc'. }
  split; [exact Hnone|]. split; [exact Hcount|].
  destruct (Hstray (mk_RenameCheckpoint 3 (-1) 100 1)) as [Hin Hnot];
    [apply list_elem_of_singleton; reflexivity|exact Hout|].
  split; [exact Hin|]. split; [exact Hnot|].
  apply Hprf. intros c Hc. apply list_elem_of_singleton in Hc as ->. exact Hout.
Defined.

(** ** Renaming *)

Lemma rename_dest_register_eq s reg id p rest :
  free_registers s = p :: rest ->
  0 <= reg < Z.of_nat (length (frontend_RAT s)) ->
  is_phys_reg s p ->
  rename_dest_register reg id s
  = Ok p (mk_RegisterAllocator
            (<[Z.to_nat reg := p]> (frontend_RAT s)) (backend_RAT s) rest
            (<[Z.to_nat p := mk_physical_register (to_uint16 reg) id false true]>
               (physical_register_file s))
            (rename_history s)).
Proof.
  intros Hfree Hreg Hp.
  unfold rename_dest_register, bind, free_registers_empty, free_registers_front,
    free_registers_pop.
  repeat (rewrite Hfree; cbv beta iota).
  rewrite frontend_RAT_set_eq by done. rewrite prf_at_assign_eq by done. reflexivity.
Qed.

Lemma rename_dest_register_empty s reg id :
  free_registers s = [] -> rename_dest_register reg id s = Abort s.
Proof.
  intros Hfree. unfold rename_dest_register, bind, free_registers_empty.
  by rewrite Hfree.
Qed.

Lemma to_uint16_arch_reg a : is_arch_reg a -> to_uint16 a = a.
Proof.
  unfold is_arch_reg, to_uint16, RAT_SIZE. intros H. apply Z.mod_small. lia.
Qed.

Lemma to_PHYSICAL_REGISTER_ID_small i :
  0 <= i <= PHYSICAL_REGISTER_ID_max -> to_PHYSICAL_REGISTER_ID i = i.
Proof.
  unfold to_PHYSICAL_REGISTER_ID, PHYSICAL_REGISTER_ID_max. intros H.
  rewrite Z.mod_small by lia. lia.
Qed.

Lemma free_register_eq s p :
  is_phys_reg s p ->
  free_register p s
  = Ok tt (mk_RegisterAllocator (frontend_RAT s) (backend_RAT s) (free_registers s ++ [p])
             (<[Z.to_nat p := free_slot]> (physical_register_file s)) (rename_history s)).
Proof.
  intros Hp. unfold free_register, bind. rewrite prf_at_assign_eq by done. reflexivity.
Qed.

(** C9. The constructor, for a register count its assertion admits: the free
    list is [0, 1, ..., n-1] in this order (so the first destination rename
    returns 0), both RATs hold [-1] everywhere, the history is empty, and
    every slot holds [{0, 0, false, false}], whose [arch_reg_index] 0 is not
    the 0xFF that [free_register] stores in a released slot. *)
Theorem RegisterAllocator_new_spec (n : nat) :
  Z.of_nat n <= PHYSICAL_REGISTER_ID_max ->
  exists s,
    RegisterAllocator_new n = Some s /\
    count_free_registers s = n /\
    free_registers s = map Z.of_nat (seq 0 n) /\
    (forall a id, (0 < n)%nat -> is_arch_reg a ->
                  exists s', rename_dest_register a id s = Ok 0 s') /\
    RATs_sized s /\
    (forall a, is_arch_reg a ->
               frontend_RAT s !! Z.to_nat a = Some UNMAPPED /\
               backend_RAT s !! Z.to_nat a = Some UNMAPPED) /\
    rename_history s = ∅ /\
    length (physical_register_file s) = n /\
    (forall p, is_phys_reg s p ->
               physical_register_file s !! Z.to_nat p = Some initial_slot /\
               exists s', free_register p s = Ok tt s' /\
                          physical_register_file s' !! Z.to_nat p = Some free_slot) /\
    arch_reg_index initial_slot = 0 /\ arch_reg_index free_slot = 255.
Proof.
  intros Hn. unfold RegisterAllocator_new.
  destruct (Z.leb_spec (Z.of_nat n) PHYSICAL_REGISTER_ID_max); [|lia].
  eexists. split; [reflexivity|].
  assert (map (fun i => to_PHYSICAL_REGISTER_ID (Z.of_nat i)) (seq 0 n)
          = map Z.of_nat (seq 0 n)) as Hfree.
  { apply map_ext_in. intros i Hi. apply in_seq in Hi.
    apply to_PHYSICAL_REGISTER_ID_small. lia. }
  unfold count_free_registers, RATs_sized, is_phys_reg.
  cbn [free_registers frontend_RAT backend_RAT physical_register_file rename_history].
  rewrite Hfree, length_map, length_seq, !length_replicate.
  repeat split.
  - intros a id Hpos Ha. destruct n as [|n]; [lia|].
    eexists. apply rename_dest_register_eq.
    + reflexivity.
    + cbn [frontend_RAT]. by rewrite length_replicate.
    + unfold is_phys_reg. cbn [physical_register_file]. rewrite length_replicate. lia.
  - apply lookup_replicate_2. unfold is_arch_reg in *. lia.
  - apply lookup_replicate_2. unfold is_arch_reg in *. lia.
  - apply lookup_replicate_2. lia.
  - eexists. split.
    + apply free_register_eq. unfold is_phys_reg. cbn [physical_register_file].
      by rewrite length_replicate.
    + cbn [physical_register_file]. apply list_lookup_insert_eq.
      rewrite length_replicate. lia.
Qed.

Lemma RegisterAllocator_new_spec_witness :
  Z.of_nat 8 <= PHYSICAL_REGISTER_ID_max /\
  exists s, RegisterAllocator_new 8 = Some s /\
            free_registers s = [0; 1; 2; 3; 4; 5; 6; 7] /\
            physical_register_file s !! 3%nat = Some initial_slot.
Proof.
  assert (Z.of_nat 8 <= PHYSICAL_REGISTER_ID_max) as H8 by (vm_compute; discriminate).
  split; [exact H8|].
  destruct (RegisterAllocator_new_spec 8 H8)
    as (s & Hnew & _ & Hfree & _ & _ & _ & _ & Hlen & Hslot & _).
  exists s. split; [exact Hnew|]. split; [exact Hfree|].
  apply (Hslot 3). unfold is_phys_reg. rewrite Hlen. lia.
Defined.

Lemma RegisterAllocator_new_inv n s :
  RegisterAllocator_new n = Some s ->
  Z.of_nat n <= PHYSICAL_REGISTER_ID_max /\
  s = mk_RegisterAllocator (replicate RAT_SIZE (-1)) (replicate RAT_SIZE (-1))
        (map Z.of_nat (seq 0 n)) (replicate n initial_slot) ∅.
Proof.
  unfold RegisterAllocator_new.
  destruct (Z.leb_spec (Z.of_nat n) PHYSICAL_REGISTER_ID_max); [|discriminate].
  intros [= <-]. split; [done|]. f_equal.
  apply map_ext_in. intros i Hi. apply in_seq in Hi.
  apply to_PHYSICAL_REGISTER_ID_small. lia.
Qed.

Lemma rename_dest_all_run reqs : forall s,
  Forall (fun r => 0 <= r.1 < Z.of_nat (length (frontend_RAT s))) reqs ->
  Forall (is_phys_reg s) (free_registers s) ->
  (length reqs <= length (free_registers s))%nat ->
  exists s', rename_dest_all reqs s = Ok tt s' /\
             free_registers s' = drop (length reqs) (free_registers s).
Proof.
  induction reqs as [|[reg id] reqs IH]; intros s Hreqs Hfree Hlen.
  - exists s. split; reflexivity.
  - destruct (free_registers s) as [|p rest] eqn:E; [cbn in Hlen; lia|].
    apply Forall_cons in Hreqs as [Hreg Hreqs]. apply Forall_cons in Hfree as [Hp Hrest].
    cbn [fst] in Hreg.
    unfold rename_dest_all. cbn [for_each]. unfold bind at 1 2. cbn [fst snd].
    rewrite (rename_dest_register_eq s reg id p rest E Hreg Hp).
    cbv beta iota. unfold ret at 1.
    match goal with |- context [for_each _ reqs ?s1] => destruct (IH s1) as (s' & Hrun & Hs') end.
    + cbn [frontend_RAT]. by rewrite length_insert.
    + unfold is_phys_reg in *. cbn [free_registers physical_register_file].
      by rewrite length_insert.
    + cbn [free_registers]. cbn in Hlen. lia.
    + exists s'. split; [exact Hrun|]. rewrite Hs'. reflexivity.
Qed.

(** C6, as stated, fails.  After eight destination renames on the
    eight-register allocator the free list is empty, and the ninth rename
    does not fail with an error that reaches its caller: the assertion
    [!free_registers.empty()] fails and the process is aborted.  No
    exception of any kind is thrown. *)
Lemma rename_dest_register_exhausted_counterexample :
  free_registers scenario_exhausted = [] /\
  rename_dest_register 9 108 scenario_exhausted = Abort scenario_exhausted /\
  (forall e s', rename_dest_register 9 108 scenario_exhausted <> Raise e s') /\
  (forall p s', rename_dest_register 9 108 scenario_exhausted <> Ok p s').
Proof.
  split; [reflexivity|].
  assert (rename_dest_register 9 108 scenario_exhausted = Abort scenario_exhausted) as H
      by (by apply rename_dest_register_empty).
  split; [exact H|]. rewrite H. split; intros; discriminate.
Qed.

(** C6, amended.  With an empty free list [rename_dest_register] fails its
    assertion before it has touched the allocator, and the process aborts;
    this is what happens to the call that follows [n] destination renames on
    a fresh allocator of [n] registers. *)
Theorem rename_dest_register_exhausted :
  (forall s reg id,
      free_registers s = [] -> rename_dest_register reg id s = Abort s) /\
  (forall n s0 reqs,
      RegisterAllocator_new n = Some s0 ->
      length reqs = n ->
      Forall (fun r => is_arch_reg r.1) reqs ->
      exists s, rename_dest_all reqs s0 = Ok tt s /\
                count_free_registers s = 0%nat /\
                forall reg id, rename_dest_register reg id s = Abort s).
Proof.
  split; [exact rename_dest_register_empty|].
  intros n s0 reqs Hnew Hlen Hreqs.
  apply RegisterAllocator_new_inv in Hnew as [Hn ->].
  destruct (rename_dest_all_run reqs
              (mk_RegisterAllocator (replicate RAT_SIZE (-1)) (replicate RAT_SIZE (-1))
                 (map Z.of_nat (seq 0 n)) (replicate n initial_slot) ∅))
    as (s & Hrun & Hfree).
  - cbn [frontend_RAT]. by rewrite length_replicate.
  - cbn [free_registers]. apply Forall_forall. intros p Hp.
    apply list_elem_of_In, in_map_iff in Hp as (i & <- & Hi). apply in_seq in Hi.
    unfold is_phys_reg. cbn [physical_register_file]. rewrite length_replicate. lia.
  - cbn [free_registers]. rewrite length_map, length_seq. lia.
  - cbn [free_registers] in Hfree.
    rewrite drop_ge in Hfree by (rewrite length_map, length_seq; lia).
    exists s. split; [exact Hrun|]. unfold count_free_registers. rewrite Hfree.
    split; [reflexivity|]. intros reg id. by apply rename_dest_register_empty.
Qed.

Lemma rename_dest_register_exhausted_witness :
  exists s,
    rename_dest_all [(5, 100); (6, 101); (5, 102); (7, 103); (1, 104); (2, 105); (3, 106); (4, 107)]
      allocator8 = Ok tt s /\
    rename_dest_register 9 108 s = Abort s.
Proof.
  destruct (proj2 rename_dest_register_exhausted 8%nat allocator8
              [(5, 100); (6, 101); (5, 102); (7, 103); (1, 104); (2, 105); (3, 106); (4, 107)])
    as (s & Hrun & _ & Hfail).
  - vm_compute. reflexivity.
  - reflexivity.
  - repeat constructor; vm_compute; intuition discriminate.
  - exists s. split; [exact Hrun|apply Hfail].
Defined.

Lemma rename_src_register_mapped s a p :
  0 <= a -> frontend_RAT s !! Z.to_nat a = Some p -> 0 <= p ->
  rename_src_register a s = Ok p s.
Proof.
  intros Ha Hl Hp. unfold rename_src_register, bind.
  rewrite (frontend_RAT_get_eq s a p Ha Hl).
  destruct (Z.ltb_spec p 0); [lia|reflexivity].
Qed.

Lemma rename_src_register_fresh s a p q rest :
  0 <= a < Z.of_nat (length (backend_RAT s)) ->
  frontend_RAT s !! Z.to_nat a = Some p -> p < 0 ->
  free_registers s = q :: rest -> is_phys_reg s q ->
  rename_src_register a s
  = Ok q (mk_RegisterAllocator
            (<[Z.to_nat a := q]> (frontend_RAT s)) (<[Z.to_nat a := q]> (backend_RAT s)) rest
            (<[Z.to_nat q := mk_physical_register (to_uint16 a) 0 true true]>
               (physical_register_file s))
            (rename_history s)).
Proof.
  intros Ha Hl Hp Hfree Hq. unfold rename_src_register, bind.
  rewrite (frontend_RAT_get_eq s a p (proj1 Ha) Hl).
  destruct (Z.ltb_spec p 0); [|lia].
  unfold free_registers_front, free_registers_pop.
  repeat (rewrite Hfree; cbv beta iota).
  rewrite frontend_RAT_set_eq by (cbn; eapply lookup_index; [apply Ha|exact Hl]).
  rewrite backend_RAT_set_eq by done. rewrite prf_at_assign_eq by done. reflexivity.
Qed.

(** C5. Source renaming.  A mapped architectural register is returned with
    the allocator untouched.  An unmapped one takes the register [q] at the
    front of the free list: the slot of [q] becomes [{a, 0, true, true}],
    both RATs map [a] to [q], the history is left alone, [q] is returned,
    and asking again returns [q] without another allocation. *)
Theorem rename_src_register_spec (s : RegisterAllocator) (a p : Z) :
  RATs_sized s -> is_arch_reg a ->
  frontend_RAT s !! Z.to_nat a = Some p -> RAT_entry_typed p ->
  (p <> UNMAPPED -> rename_src_register a s = Ok p s) /\
  (p = UNMAPPED ->
   forall q rest,
     free_registers s = q :: rest -> is_phys_reg s q ->
     exists s',
       rename_src_register a s = Ok q s' /\
       s' = mk_RegisterAllocator
              (<[Z.to_nat a := q]> (frontend_RAT s)) (<[Z.to_nat a := q]> (backend_RAT s)) rest
              (<[Z.to_nat q := mk_physical_register a 0 true true]> (physical_register_file s))
              (rename_history s) /\
       frontend_RAT s' !! Z.to_nat a = Some q /\
       backend_RAT s' !! Z.to_nat a = Some q /\
       physical_register_file s' !! Z.to_nat q = Some (mk_physical_register a 0 true true) /\
       rename_src_register a s' = Ok q s').
Proof.
  intros [Hf Hb] Ha Hl Hty. split.
  - intros Hp. apply rename_src_register_mapped; [apply Ha|done|].
    unfold RAT_entry_typed in Hty. destruct Hty; [done|lia].
  - intros -> q rest Hfree Hq. eexists.
    split.
    { erewrite rename_src_register_fresh; [|by rewrite Hb|done|done|done|done].
      rewrite to_uint16_arch_reg by done. reflexivity. }
    split; [reflexivity|].
    cbn [frontend_RAT backend_RAT physical_register_file].
    assert (Z.to_nat a < length (frontend_RAT s))%nat
      by (rewrite Hf; unfold is_arch_reg in Ha; lia).
    assert (Z.to_nat a < length (backend_RAT s))%nat
      by (rewrite Hb; unfold is_arch_reg in Ha; lia).
    assert (Z.to_nat q < length (physical_register_file s))%nat
      by (unfold is_phys_reg in Hq; lia).
    split; [by apply list_lookup_insert_eq|].
    split; [by apply list_lookup_insert_eq|].
    split; [by apply list_lookup_insert_eq|].
    apply rename_src_register_mapped; [apply Ha| |apply Hq].
    cbn [frontend_RAT]. by apply list_lookup_insert_eq.
Qed.

Lemma rename_src_register_spec_witness :
  RATs_sized allocator8 /\ is_arch_reg 3 /\
  frontend_RAT allocator8 !! Z.to_nat 3 = Some UNMAPPED /\ RAT_entry_typed UNMAPPED /\
  exists s', rename_src_register 3 allocator8 = Ok 0 s' /\
             rename_src_register 3 s' = Ok 0 s'.
Proof.
  assert (RATs_sized allocator8) as Hsz by (split; vm_compute; reflexivity).
  assert (is_arch_reg 3) as Ha by (unfold is_arch_reg, RAT_SIZE; lia).
  assert (frontend_RAT allocator8 !! Z.to_nat 3 = Some UNMAPPED) as Hl by reflexivity.
  assert (RAT_entry_typed UNMAPPED) as Hty by (left; reflexivity).
  do 4 (split; [assumption|]).
  destruct (proj2 (rename_src_register_spec allocator8 3 UNMAPPED Hsz Ha Hl Hty) eq_refl
              0 [1; 2; 3; 4; 5; 6; 7])
    as (s' & Hrun & _ & _ & _ & _ & Hagain).
  - reflexivity.
  - unfold is_phys_reg. vm_compute. split; [discriminate|reflexivity].
  - exists s'. split; [exact Hrun|exact Hagain].
Defined.

(** ** Retirement *)

(** C4. [retire_dest_register p] for an in-range [p] whose slot names the
    architectural register [a], with [old] the backend mapping of [a]
    (the sentinel or a register id): afterwards [backend_RAT[a] = p]; when
    [old] is the sentinel nothing else changes; otherwise slot [old] holds
    the released-slot contents and [old] has been pushed on the free list.
    The frontend RAT and the history are not touched. *)
Theorem retire_dest_register_spec (s : RegisterAllocator) (p old : Z)
    (r : physical_register) :
  is_phys_reg s p ->
  physical_register_file s !! Z.to_nat p = Some r ->
  busy r = true ->
  is_arch_reg (arch_reg_index r) ->
  backend_RAT s !! Z.to_nat (arch_reg_index r) = Some old ->
  old = UNMAPPED \/ is_phys_reg s old ->
  exists s',
    retire_dest_register p s = Ok tt s' /\
    backend_RAT s' = <[Z.to_nat (arch_reg_index r) := p]> (backend_RAT s) /\
    backend_RAT s' !! Z.to_nat (arch_reg_index r) = Some p /\
    frontend_RAT s' = frontend_RAT s /\
    rename_history s' = rename_history s /\
    (old = UNMAPPED ->
     physical_register_file s' = physical_register_file s /\
     free_registers s' = free_registers s) /\
    (old <> UNMAPPED ->
     physical_register_file s' = <[Z.to_nat old := free_slot]> (physical_register_file s) /\
     physical_register_file s' !! Z.to_nat old = Some free_slot /\
     free_registers s' = free_registers s ++ [old] /\
     old ∈ free_registers s').
Proof.
  intros Hp Hr _ Ha Hold Hty.
  assert (0 <= arch_reg_index r < Z.of_nat (length (backend_RAT s))) as Hidx
      by (apply (lookup_index _ _ old); [apply Ha|exact Hold]).
  unfold retire_dest_register, bind.
  rewrite (prf_at_eq s p r (proj1 Hp) Hr).
  rewrite (backend_RAT_get_eq s _ old (proj1 Ha) Hold).
  rewrite backend_RAT_set_eq by done.
  destruct (Z.eqb_spec old (-1)) as [->|Hne]; cbn [negb].
  - eexists. split; [reflexivity|]. cbn.
    split; [reflexivity|]. split; [apply list_lookup_insert_eq; lia|].
    do 2 (split; [reflexivity|]). split; [done|]. intros H. by destruct H.
  - destruct Hty as [->|Hold_range]; [done|].
    rewrite free_register_eq by done. eexists. split; [reflexivity|]. cbn.
    split; [reflexivity|]. split; [apply list_lookup_insert_eq; lia|].
    do 2 (split; [reflexivity|]). split; [intros ->; done|]. intros _.
    split; [reflexivity|].
    split; [apply list_lookup_insert_eq; unfold is_phys_reg in Hold_range; lia|].
    split; [reflexivity|]. apply elem_of_app. right. by apply list_elem_of_singleton.
Qed.

Lemma retire_dest_register_spec_witness :
  exists s',
    retire_dest_register 1 scenario_retire = Ok tt s' /\
    backend_RAT s' !! 5%nat = Some 1 /\
    physical_register_file s' !! 0%nat = Some free_slot /\
    0 ∈ free_registers s'.
Proof.
  destruct (retire_dest_register_spec scenario_retire 1 0
              (mk_physical_register 5 101 true true))
    as (s' & Hrun & _ & Hback & _ & _ & _ & Hfreed).
  - unfold is_phys_reg. vm_compute. split; [discriminate|reflexivity].
  - reflexivity.
  - reflexivity.
  - unfold is_arch_reg. vm_compute. split; [discriminate|reflexivity].
  - reflexivity.
  - right. unfold is_phys_reg. vm_compute. split; [discriminate|reflexivity].
  - destruct Hfreed as (_ & Hslot & _ & Hin); [discriminate|].
    exists s'. split; [exact Hrun|]. split; [exact Hback|]. split; [exact Hslot|exact Hin].
Defined.

(** ** Rename followed by rollback *)

Lemma get_current_mapping_eq s a p :
  0 <= a -> frontend_RAT s !! Z.to_nat a = Some p -> get_current_mapping a s = Ok p s.
Proof.
  intros Ha Hl. unfold get_current_mapping.
  pose proof (lookup_index _ _ _ Ha Hl) as [_ Hlt].
  destruct (Z.ltb_spec a 0); [lia|].
  destruct (Z.leb_spec (Z.of_nat (length (frontend_RAT s))) a); [lia|].
  cbn [orb]. by apply frontend_RAT_get_eq.
Qed.

Lemma rename_dest_eq s a id old p rest :
  0 <= a -> frontend_RAT s !! Z.to_nat a = Some old ->
  free_registers s = p :: rest -> is_phys_reg s p ->
  rename_dest a id s
  = Ok p (mk_RegisterAllocator
            (<[Z.to_nat a := p]> (frontend_RAT s)) (backend_RAT s) rest
            (<[Z.to_nat p := mk_physical_register (to_uint16 a) id false true]>
               (physical_register_file s))
            (<[id := default [] (rename_history s !! id) ++ [mk_RenameCheckpoint a old p id]]>
               (rename_history s))).
Proof.
  intros Ha Hl Hfree Hp. unfold rename_dest, bind.
  rewrite (get_current_mapping_eq s a old Ha Hl).
  rewrite (rename_dest_register_eq s a id p rest Hfree) by eauto using lookup_index.
  reflexivity.
Qed.

(** C2, as stated, fails.  On a fresh allocator the round trip leaves slot 0
    with the released-slot contents (arch_reg_index 0xFF) where the
    constructor had put arch_reg_index 0.  And when the instruction id
    already owns a checkpoint, the rollback also undoes that earlier rename
    and removes the whole history entry. *)
Lemma rename_undo_roundtrip_counterexample :
  (free_registers allocator8 <> [] /\
   exists s', rename_then_undo 5 100 allocator8 = Ok tt s' /\
              physical_register_file allocator8 !! 0%nat = Some initial_slot /\
              physical_register_file s' !! 0%nat = Some free_slot /\
              physical_register_file s' <> physical_register_file allocator8) /\
  (free_registers scenario_first_dest <> [] /\
   exists s', rename_then_undo 6 100 scenario_first_dest = Ok tt s' /\
              frontend_RAT scenario_first_dest !! 5%nat = Some 0 /\
              frontend_RAT s' !! 5%nat = Some UNMAPPED /\
              rename_history scenario_first_dest !! 100
                = Some [mk_RenameCheckpoint 5 (-1) 0 100] /\
              rename_history s' !! 100 = None).
Proof.
  split.
  - split; [vm_compute; discriminate|].
    eexists. split; [vm_compute; reflexivity|].
    split; [reflexivity|]. split; [reflexivity|]. vm_compute. discriminate.
  - split; [vm_compute; discriminate|].
    eexists. split; [vm_compute; reflexivity|].
    split; [reflexivity|]. split; [reflexivity|]. split; vm_compute; reflexivity.
Qed.

(** C2, amended.  When the instruction id owns no checkpoint yet, a recorded
    destination rename followed by its rollback restores both RATs and the
    rename history, moves the allocated register [p] from the front of the
    free list to its back, and leaves every slot but [p] as it was; slot [p]
    ends with the released-slot contents. *)
Theorem rename_undo_roundtrip (s : RegisterAllocator) (a id p : Z) (rest : list Z) :
  RATs_sized s -> is_arch_reg a ->
  free_registers s = p :: rest -> is_phys_reg s p ->
  rename_history s !! id = None ->
  exists s',
    rename_then_undo a id s = Ok tt s' /\
    frontend_RAT s' = frontend_RAT s /\
    backend_RAT s' = backend_RAT s /\
    rename_history s' = rename_history s /\
    free_registers s' = rest ++ [p] /\
    free_registers s' ≡ₚ free_registers s /\
    physical_register_file s' = <[Z.to_nat p := free_slot]> (physical_register_file s) /\
    (forall q, q <> Z.to_nat p ->
               physical_register_file s' !! q = physical_register_file s !! q) /\
    (physical_register_file s !! Z.to_nat p = Some free_slot ->
     physical_register_file s' = physical_register_file s).
Proof.
  intros [Hf Hb] Ha Hfree Hp Hhist.
  destruct (index_lookup (frontend_RAT s) a) as [old Hold];
    [rewrite Hf; exact Ha|].
  unfold rename_then_undo, bind.
  rewrite (rename_dest_eq s a id old p rest (proj1 Ha) Hold Hfree Hp).
  rewrite Hhist. cbn [default app].
  erewrite undo_rename_present.
  2:{ cbn [rename_history]. apply lookup_insert_eq. }
  2:{ intros c Hc. apply list_elem_of_singleton in Hc as ->.
      cbn [arch_reg frontend_RAT]. rewrite length_insert, Hf. exact Ha. }
  eexists. split; [reflexivity|].
  cbn [undo_all_spec foldr undo_one_spec set_rename_history frontend_RAT backend_RAT
       free_registers physical_register_file rename_history arch_reg old_phys_reg
       new_phys_reg].
  rewrite decide_True
    by (unfold is_phys_reg in *; cbn [physical_register_file]; by rewrite length_insert).
  rewrite !list_insert_insert_eq.
  split; [by apply list_insert_id|].
  split; [reflexivity|].
  split; [by apply delete_insert_id|].
  split; [reflexivity|].
  split; [rewrite Hfree; symmetry; apply Permutation_cons_append|].
  split; [reflexivity|].
  split; [intros q Hq; by apply list_lookup_insert_ne|].
  intros Hslot. by apply list_insert_id.
Qed.

Lemma rename_undo_roundtrip_witness :
  exists s',
    rename_then_undo 5 100 allocator8 = Ok tt s' /\
    frontend_RAT s' = frontend_RAT allocator8 /\
    rename_history s' = rename_history allocator8 /\
    free_registers s' = [1; 2; 3; 4; 5; 6; 7; 0].
Proof.
  destruct (rename_undo_roundtrip allocator8 5 100 0 [1; 2; 3; 4; 5; 6; 7])
    as (s' & Hrun & Hfront & _ & Hhist & Hfree & _).
  - split; vm_compute; reflexivity.
  - unfold is_arch_reg. vm_compute. split; [discriminate|reflexivity].
  - reflexivity.
  - unfold is_phys_reg. vm_compute. split; [discriminate|reflexivity].
  - reflexivity.
  - exists s'. split; [exact Hrun|]. split; [exact Hfront|]. split; [exact Hhist|exact Hfree].
Defined.

(** ** The free list and the busy slots *)

Lemma busy_filter_cons r prf :
  length (filter (fun r => busy r = true) (r :: prf))
  = (busy_weight r + length (filter (fun r => busy r = true) prf))%nat.
Proof.
  unfold busy_weight. destruct (busy r) eqn:E.
  - by rewrite filter_cons_True.
  - rewrite filter_cons_False; [done|]. by rewrite E.
Qed.

(** Overwriting one slot shifts the busy count by the difference of the two
    busy flags. *)
Lemma busy_filter_insert prf i r r' :
  prf !! i = Some r ->
  (length (filter (fun r => busy r = true) (<[i := r']> prf)) + busy_weight r
   = length (filter (fun r => busy r = true) prf) + busy_weight r')%nat.
Proof.
  revert i. induction prf as [|r0 prf IH]; intros i Hl; [done|].
  destruct i as [|i]; cbn in Hl.
  - injection Hl as ->. cbn [insert list_insert]. rewrite !busy_filter_cons. lia.
  - cbn [insert list_insert]. rewrite !busy_filter_cons.
    rewrite <- !Nat.add_assoc. f_equal. exact (IH i Hl).
Qed.

Lemma free_list_ok_alloc n p rest prf r' :
  free_list_ok n (p :: rest) prf -> busy r' = true ->
  free_list_ok n rest (<[Z.to_nat p := r']> prf).
Proof.
  intros (Hlen & Hnd & Hiff & Hcount) Hbusy.
  apply NoDup_cons in Hnd as [Hp Hnd].
  destruct (proj1 (Hiff p)) as ([Hp0 Hp1] & r & Hr & Hrb); [apply elem_of_cons; by left|].
  split; [by rewrite length_insert|]. split; [exact Hnd|]. split.
  - intros q. rewrite length_insert. split.
    + intros Hq. destruct (proj1 (Hiff q)) as (Hq01 & rq & Hrq & Hrqb);
        [apply elem_of_cons; by right|].
      split; [exact Hq01|]. exists rq. split; [|exact Hrqb].
      rewrite list_lookup_insert_ne; [exact Hrq|].
      intros Heq. assert (p = q) as -> by lia. done.
    + intros (Hq01 & rq & Hrq & Hrqb).
      destruct (decide (Z.to_nat p = Z.to_nat q)) as [Heq|Hne].
      * rewrite Heq, list_lookup_insert_eq in Hrq by lia.
        injection Hrq as <-. congruence.
      * rewrite list_lookup_insert_ne in Hrq by done.
        assert (q ∈ p :: rest) as Hin by (apply Hiff; eauto).
        apply elem_of_cons in Hin as [->|Hin]; [done|exact Hin].
  - pose proof (busy_filter_insert prf (Z.to_nat p) r r' Hr) as Hins.
    unfold busy_weight in Hins. rewrite Hrb, Hbusy in Hins.
    cbn [length] in Hcount. lia.
Qed.

Lemma free_list_ok_push n p free prf r' :
  free_list_ok n free prf ->
  0 <= p < Z.of_nat (length prf) -> p ∉ free -> busy r' = false ->
  free_list_ok n (free ++ [p]) (<[Z.to_nat p := r']> prf).
Proof.
  intros (Hlen & Hnd & Hiff & Hcount) Hp Hnotin Hbusy.
  destruct (index_lookup prf p Hp) as [r Hr].
  assert (busy r = true) as Hrb.
  { destruct (busy r) eqn:E; [done|]. exfalso. apply Hnotin, Hiff. eauto. }
  split; [by rewrite length_insert|]. split.
  - apply NoDup_app. split; [exact Hnd|]. split; [|apply NoDup_singleton].
    intros q Hq Hq'. apply list_elem_of_singleton in Hq' as ->. done.
  - split.
    + intros q. rewrite length_insert, elem_of_app, list_elem_of_singleton. split.
      * intros [Hq| ->].
        -- destruct (proj1 (Hiff q) Hq) as (Hq01 & rq & Hrq & Hrqb).
           split; [exact Hq01|]. exists rq. split; [|exact Hrqb].
           rewrite list_lookup_insert_ne; [exact Hrq|].
           intros Heq. assert (p = q) as -> by lia. done.
        -- split; [exact Hp|]. exists r'. split; [|exact Hbusy].
           apply list_lookup_insert_eq. lia.
      * intros (Hq01 & rq & Hrq & Hrqb).
        destruct (decide (Z.to_nat p = Z.to_nat q)) as [Heq|Hne].
        -- right. lia.
        -- left. rewrite list_lookup_insert_ne in Hrq by done. apply Hiff. eauto.
    + pose proof (busy_filter_insert prf (Z.to_nat p) r r' Hr) as Hins.
      unfold busy_weight in Hins. rewrite Hrb, Hbusy in Hins.
      rewrite length_app. cbn [length]. lia.
Qed.

Lemma free_list_ok_same_busy n i free prf r r' :
  free_list_ok n free prf ->
  prf !! i = Some r -> busy r' = busy r ->
  free_list_ok n free (<[i := r']> prf).
Proof.
  intros (Hlen & Hnd & Hiff & Hcount) Hr Hbusy.
  split; [by rewrite length_insert|]. split; [exact Hnd|]. split.
  - intros q. rewrite length_insert, Hiff. split.
    + intros (Hq01 & rq & Hrq & Hrqb). split; [exact Hq01|].
      destruct (decide (i = Z.to_nat q)) as [->|Hne].
      * exists r'. split; [apply list_lookup_insert_eq; lia|]. congruence.
      * exists rq. by rewrite list_lookup_insert_ne.
    + intros (Hq01 & rq & Hrq & Hrqb). split; [exact Hq01|].
      destruct (decide (i = Z.to_nat q)) as [->|Hne].
      * rewrite list_lookup_insert_eq in Hrq by lia. injection Hrq as <-.
        exists r. split; [done|congruence].
      * rewrite list_lookup_insert_ne in Hrq by done. eauto.
  - pose proof (busy_filter_insert prf i r r' Hr) as Hins.
    unfold busy_weight in Hins. rewrite Hbusy in Hins. lia.
Qed.

(** ** Inversion of returning computations *)

Lemma bind_Ok_inv {A B} (m : M A) (k : A -> M B) s b s'' :
  bind m k s = Ok b s'' -> exists a s', m s = Ok a s' /\ k a s' = Ok b s''.
Proof. unfold bind. destruct (m s) as [a s'| | |]; [eauto|discriminate..]. Qed.

Lemma ret_Ok_inv {A} (a b : A) s s' : ret a s = Ok b s' -> b = a /\ s' = s.
Proof. unfold ret. by intros [= -> ->]. Qed.

Lemma frontend_RAT_get_Ok_inv reg s p s' :
  frontend_RAT_get reg s = Ok p s' ->
  s' = s /\ 0 <= reg /\ frontend_RAT s !! Z.to_nat reg = Some p.
Proof.
  unfold frontend_RAT_get.
  destruct (index_of _ reg) as [n|] eqn:E; [|discriminate].
  apply index_of_inv in E as [E ->].
  destruct (frontend_RAT s !! Z.to_nat reg) eqn:El; [|discriminate].
  intros [= -> ->]. split; [done|]. split; [lia|done].
Qed.

Lemma backend_RAT_get_Ok_inv reg s p s' :
  backend_RAT_get reg s = Ok p s' ->
  s' = s /\ 0 <= reg /\ backend_RAT s !! Z.to_nat reg = Some p.
Proof.
  unfold backend_RAT_get.
  destruct (index_of _ reg) as [n|] eqn:E; [|discriminate].
  apply index_of_inv in E as [E ->].
  destruct (backend_RAT s !! Z.to_nat reg) eqn:El; [|discriminate].
  intros [= -> ->]. split; [done|]. split; [lia|done].
Qed.

Lemma frontend_RAT_set_Ok_inv reg p s u s' :
  frontend_RAT_set reg p s = Ok u s' ->
  free_registers s' = free_registers s /\
  physical_register_file s' = physical_register_file s.
Proof.
  unfold frontend_RAT_set. destruct (index_of _ reg); [|discriminate].
  by intros [= _ <-].
Qed.

Lemma backend_RAT_set_Ok_inv reg p s u s' :
  backend_RAT_set reg p s = Ok u s' ->
  free_registers s' = free_registers s /\
  physical_register_file s' = physical_register_file s.
Proof.
  unfold backend_RAT_set. destruct (index_of _ reg); [|discriminate].
  by intros [= _ <-].
Qed.

Lemma free_registers_front_Ok_inv s p s' :
  free_registers_front s = Ok p s' -> s' = s /\ exists rest, free_registers s = p :: rest.
Proof.
  unfold free_registers_front. destruct (free_registers s) as [|q rest]; [discriminate|].
  intros [= -> ->]. eauto.
Qed.

Lemma free_registers_pop_Ok_inv s u s' :
  free_registers_pop s = Ok u s' ->
  physical_register_file s' = physical_register_file s /\
  exists q, free_registers s = q :: free_registers s'.
Proof.
  unfold free_registers_pop. destruct (free_registers s) as [|q rest]; [discriminate|].
  intros [= _ <-]. eauto.
Qed.

Lemma prf_at_Ok_inv i s r s' :
  prf_at i s = Ok r s' ->
  s' = s /\ is_phys_reg s i /\ physical_register_file s !! Z.to_nat i = Some r.
Proof.
  unfold prf_at. destruct (index_of _ i) as [n|] eqn:E; [|discriminate].
  apply index_of_inv in E as [E ->].
  destruct (physical_register_file s !! Z.to_nat i) eqn:El; [|discriminate].
  by intros [= -> ->].
Qed.

Lemma prf_at_assign_Ok_inv i r s u s' :
  prf_at_assign i r s = Ok u s' ->
  is_phys_reg s i /\
  free_registers s' = free_registers s /\
  physical_register_file s' = <[Z.to_nat i := r]> (physical_register_file s).
Proof.
  unfold prf_at_assign. destruct (index_of _ i) as [n|] eqn:E; [|discriminate].
  apply index_of_inv in E as [E ->]. by intros [= _ <-].
Qed.

Lemma undo_loop_Ok_inv l : forall s u s',
  for_each undo_checkpoint l s = Ok u s' -> s' = undo_all_spec (rev l) s.
Proof.
  induction l as [|c l IH]; intros s u s' H; cbn [for_each] in H.
  - apply ret_Ok_inv in H as [_ ->]. reflexivity.
  - apply bind_Ok_inv in H as (u1 & s1 & H1 & H2).
    apply undo_checkpoint_Ok_inv in H1 as ->. apply IH in H2 as ->.
    cbn [rev]. unfold undo_all_spec. rewrite foldr_app. reflexivity.
Qed.

Lemma undo_rename_Ok_inv id s u s' :
  undo_rename id s = Ok u s' ->
  (rename_history s !! id = None /\ s' = s) \/
  (exists cps, rename_history s !! id = Some cps /\
               s' = set_rename_history (delete id (rename_history s)) (undo_all_spec cps s)).
Proof.
  intros H. unfold undo_rename in H.
  apply bind_Ok_inv in H as (it & s1 & Hfind & H).
  unfold rename_history_find in Hfind. injection Hfind as <- <-.
  destruct (rename_history s !! id) as [cps|]; [right|left].
  - apply bind_Ok_inv in H as (u1 & s1 & Hloop & Herase).
    apply undo_loop_Ok_inv in Hloop as ->. rewrite rev_involutive in Herase.
    unfold rename_history_erase in Herase. injection Herase as _ <-.
    rewrite undo_all_spec_history. eauto.
  - apply ret_Ok_inv in H as [_ ->]. done.
Qed.

(** ** Every operation keeps the free list in step with the busy flags *)

Section FreeListInvariant.

(** The number of physical registers the allocator was built with. *)
Variable n : nat.

(** The inversion step shared by the proofs below: a returning [bind] splits
    into its two returning halves. *)
Tactic Notation "bind_inv" hyp(H) "as" simple_intropattern(pat) :=
  apply bind_Ok_inv in H as pat.

Lemma free_list_inv_frame s s' :
  free_registers s' = free_registers s ->
  physical_register_file s' = physical_register_file s ->
  free_list_inv n s -> free_list_inv n s'.
Proof. unfold free_list_inv. by intros -> ->. Qed.

Lemma rename_dest_register_preserves reg id s p s' :
  free_list_inv n s -> rename_dest_register reg id s = Ok p s' -> free_list_inv n s'.
Proof.
  intros Hinv H. unfold rename_dest_register in H.
  bind_inv H as (b & s1 & He & H).
  unfold free_registers_empty in He. injection He as <- <-.
  destruct (match free_registers s with [] => true | _ => false end); [discriminate|].
  bind_inv H as (q & s1 & Hfront & H).
  apply free_registers_front_Ok_inv in Hfront as (-> & rest & Hfree).
  bind_inv H as (u2 & s2 & Hpop & H).
  apply free_registers_pop_Ok_inv in Hpop as (Hp2 & q' & Hf2).
  bind_inv H as (u3 & s3 & Hset & H).
  apply frontend_RAT_set_Ok_inv in Hset as (Hf3 & Hp3).
  bind_inv H as (u4 & s4 & Hassign & H).
  apply prf_at_assign_Ok_inv in Hassign as (_ & Hf4 & Hp4).
  apply ret_Ok_inv in H as [-> ->].
  unfold free_list_inv in *. rewrite Hf4, Hp4, Hf3, Hp3, Hp2.
  rewrite Hf2 in Hfree. injection Hfree as -> _. rewrite Hf2 in Hinv.
  by apply free_list_ok_alloc.
Qed.

Lemma rename_src_register_preserves reg s p s' :
  free_list_inv n s -> rename_src_register reg s = Ok p s' -> free_list_inv n s'.
Proof.
  intros Hinv H. unfold rename_src_register in H.
  bind_inv H as (phys & s1 & Hget & H).
  apply frontend_RAT_get_Ok_inv in Hget as (-> & _ & _).
  destruct (phys <? 0).
  - bind_inv H as (q & s1 & Hfront & H).
    apply free_registers_front_Ok_inv in Hfront as (-> & rest & Hfree).
    bind_inv H as (u2 & s2 & Hpop & H).
    apply free_registers_pop_Ok_inv in Hpop as (Hp2 & q' & Hf2).
    bind_inv H as (u3 & s3 & Hset & H).
    apply frontend_RAT_set_Ok_inv in Hset as (Hf3 & Hp3).
    bind_inv H as (u3' & s3' & Hset' & H).
    apply backend_RAT_set_Ok_inv in Hset' as (Hf3' & Hp3').
    bind_inv H as (u4 & s4 & Hassign & H).
    apply prf_at_assign_Ok_inv in Hassign as (_ & Hf4 & Hp4).
    apply ret_Ok_inv in H as [-> ->].
    unfold free_list_inv in *. rewrite Hf4, Hp4, Hf3', Hp3', Hf3, Hp3, Hp2.
    rewrite Hf2 in Hfree. injection Hfree as -> _. rewrite Hf2 in Hinv.
    by apply free_list_ok_alloc.
  - apply ret_Ok_inv in H as [_ ->]. exact Hinv.
Qed.

Lemma complete_dest_register_preserves p s u s' :
  free_list_inv n s -> complete_dest_register p s = Ok u s' -> free_list_inv n s'.
Proof.
  intros Hinv H. unfold complete_dest_register in H.
  bind_inv H as (r & s1 & Hat & H).
  apply prf_at_Ok_inv in Hat as (-> & _ & Hr).
  apply prf_at_assign_Ok_inv in H as (_ & Hf & Hp).
  unfold free_list_inv in *. rewrite Hf, Hp.
  by apply (free_list_ok_same_busy n _ _ _ r).
Qed.

Lemma free_register_preserves p s u s' :
  free_list_inv n s -> p ∉ free_registers s ->
  free_register p s = Ok u s' -> free_list_inv n s'.
Proof.
  intros Hinv Hnotin H. unfold free_register in H.
  bind_inv H as (u1 & s1 & Hassign & H).
  apply prf_at_assign_Ok_inv in Hassign as (Hp & Hf1 & Hp1).
  unfold free_registers_push in H. injection H as _ <-.
  unfold free_list_inv in *. cbn [free_registers physical_register_file].
  rewrite Hf1, Hp1. by apply free_list_ok_push.
Qed.

Lemma retire_dest_register_preserves p s u s' :
  free_list_inv n s -> legal (Retire p) s ->
  retire_dest_register p s = Ok u s' -> free_list_inv n s'.
Proof.
  intros Hinv [_ Hlegal] H. unfold retire_dest_register in H.
  bind_inv H as (r & s1 & Hat & H).
  pose proof Hat as Hat'. apply prf_at_Ok_inv in Hat' as (-> & _ & _).
  bind_inv H as (old & s1 & Hget & H).
  pose proof Hget as Hget'. apply backend_RAT_get_Ok_inv in Hget' as (-> & _ & _).
  bind_inv H as (u3 & s3 & Hset & H).
  apply backend_RAT_set_Ok_inv in Hset as (Hf3 & Hp3).
  assert (free_list_inv n s3) as Hinv3 by by apply (free_list_inv_frame s).
  unfold pushed_by, bind in Hlegal. rewrite Hat, Hget in Hlegal.
  destruct (negb (old =? -1)).
  - apply Forall_cons in Hlegal as [[_ Hnotin] _].
    apply (free_register_preserves old s3 u s' Hinv3); [by rewrite Hf3|exact H].
  - apply ret_Ok_inv in H as [_ ->]. exact Hinv3.
Qed.

Lemma undo_all_spec_preserves cps s :
  free_list_inv n s ->
  NoDup (map new_phys_reg cps) ->
  (forall c, c ∈ cps -> is_phys_reg s (new_phys_reg c) /\ new_phys_reg c ∉ free_registers s) ->
  free_list_inv n (undo_all_spec cps s).
Proof.
  intros Hinv. induction cps as [|c cps IH]; intros Hnd Hok; [exact Hinv|].
  cbn [map] in Hnd. apply NoDup_cons in Hnd as [Hc Hnd].
  assert (free_list_inv n (undo_all_spec cps s)) as IH'
      by (apply IH; [exact Hnd|intros c' Hc'; apply Hok, elem_of_cons; by right]).
  destruct (Hok c) as [Hp Hnotin]; [apply elem_of_cons; by left|].
  cbn [undo_all_spec foldr]. fold (undo_all_spec cps s).
  unfold free_list_inv. cbn [undo_one_spec free_registers physical_register_file].
  rewrite decide_True by by apply is_phys_reg_undo_all_spec.
  apply free_list_ok_push; [exact IH'| |
                           |reflexivity].
  - rewrite undo_all_spec_prf_length. exact Hp.
  - rewrite undo_all_spec_free, elem_of_app. intros [Hin|Hin]; [done|].
    apply Hc. apply list_elem_of_In. apply list_elem_of_In, in_rev in Hin. exact Hin.
Qed.

Lemma undo_rename_preserves id s u s' :
  free_list_inv n s -> legal (UndoRename id) s ->
  undo_rename id s = Ok u s' -> free_list_inv n s'.
Proof.
  intros Hinv [Hnd Hlegal] H.
  apply undo_rename_Ok_inv in H as [[_ ->]|(cps & Hcps & ->)]; [exact Hinv|].
  unfold pushed_by in Hnd, Hlegal. rewrite Hcps in Hnd, Hlegal.
  apply (free_list_inv_frame (undo_all_spec cps s)); [reflexivity..|].
  apply undo_all_spec_preserves; [exact Hinv| |].
  - by rewrite <- Permutation_rev in Hnd.
  - intros c Hc. rewrite Forall_forall in Hlegal. apply Hlegal.
    apply list_elem_of_In. apply -> in_rev. apply in_map. by apply list_elem_of_In.
Qed.

Lemma run_operation_preserves o s u s' :
  free_list_inv n s -> legal o s -> run_operation o s = Ok u s' -> free_list_inv n s'.
Proof.
  intros Hinv Hlegal H. destruct o; cbn [run_operation] in H.
  - bind_inv H as (p & s1 & H & Hret). apply ret_Ok_inv in Hret as [_ ->].
    by eapply rename_dest_register_preserves.
  - bind_inv H as (p & s1 & H & Hret). apply ret_Ok_inv in Hret as [_ ->].
    by eapply rename_src_register_preserves.
  - by eapply complete_dest_register_preserves.
  - by eapply retire_dest_register_preserves.
  - destruct Hlegal as [_ Hlegal]. cbn [pushed_by] in Hlegal.
    apply Forall_cons in Hlegal as [[_ Hnotin] _].
    by eapply free_register_preserves.
  - unfold record_rename, rename_history_push_back in H. injection H as _ <-. exact Hinv.
  - by eapply undo_rename_preserves.
  - unfold retire_rename in H. bind_inv H as (it & s1 & Hfind & H).
    unfold rename_history_find in Hfind. injection Hfind as <- <-.
    destruct (rename_history s !! id).
    + unfold rename_history_erase in H. injection H as _ <-. exact Hinv.
    + apply ret_Ok_inv in H as [_ ->]. exact Hinv.
  - unfold reset_frontend_RAT in H. injection H as _ <-. exact Hinv.
Qed.

Lemma run_legal_preserves ops : forall s s',
  free_list_inv n s -> run_legal ops s = Some s' -> free_list_inv n s'.
Proof.
  induction ops as [|o ops IH]; intros s s' Hinv H; cbn [run_legal] in H.
  - by injection H as <-.
  - destruct (decide (legal o s)) as [Hlegal|]; [|discriminate].
    destruct (run_operation o s) as [u s1| | |] eqn:E; try discriminate.
    apply (IH s1 s'); [|exact H]. by eapply run_operation_preserves.
Qed.

End FreeListInvariant.

Lemma busy_filter_replicate n r :
  busy r = false -> filter (fun r => busy r = true) (replicate n r) = [].
Proof.
  intros Hr. induction n as [|n IH]; [done|].
  cbn [replicate]. rewrite filter_cons_False; [exact IH|]. by rewrite Hr.
Qed.

Lemma RegisterAllocator_new_inv_holds n s :
  RegisterAllocator_new n = Some s -> free_list_inv n s.
Proof.
  intros H. apply RegisterAllocator_new_inv in H as [Hn ->].
  unfold free_list_inv, free_list_ok. cbn [free_registers physical_register_file].
  rewrite length_replicate. split; [reflexivity|]. split.
  - change (NoDup (Z.of_nat <$> seq 0 n)). apply NoDup_fmap_2; [apply _|apply NoDup_seq].
  - split.
    + intros p. split.
      * intros Hp. apply list_elem_of_In, in_map_iff in Hp as (i & <- & Hi).
        apply in_seq in Hi. split; [lia|]. exists initial_slot. split; [|reflexivity].
        apply lookup_replicate_2. lia.
      * intros (Hp & _). apply list_elem_of_In, in_map_iff. exists (Z.to_nat p).
        split; [lia|]. apply in_seq. lia.
    + rewrite busy_filter_replicate by reflexivity.
      rewrite length_map, length_seq. cbn [length]. lia.
Qed.

(** C3. Along any run of operations from a fresh allocator of [n] registers
    in which every operation returns and releases only registers that are
    not in the free list, the free count and the busy count add up to [n]
    (and the register file keeps its [n] slots). *)
Theorem free_plus_busy_invariant (n : nat) (s0 s : RegisterAllocator)
    (ops : list operation) :
  RegisterAllocator_new n = Some s0 ->
  run_legal ops s0 = Some s ->
  (count_free_registers s + count_busy s)%nat = n /\
  length (physical_register_file s) = n.
Proof.
  intros Hnew Hrun.
  apply RegisterAllocator_new_inv_holds in Hnew.
  destruct (run_legal_preserves n ops s0 s Hnew Hrun) as (Hlen & _ & _ & Hcount).
  split; [exact Hcount|exact Hlen].
Qed.

Lemma free_plus_busy_invariant_witness :
  exists s, run_legal scenario_run allocator8 = Some s /\
            (count_free_registers s + count_busy s)%nat = 8%nat /\
            count_free_registers s = 7%nat.
Proof.
  eexists. split; [vm_compute; reflexivity|].
  split; [|reflexivity].
  refine (proj1 (free_plus_busy_invariant 8 allocator8 _ scenario_run _ _)).
  - vm_compute. reflexivity.
  - vm_compute. reflexivity.
Defined.

(** ** Trace record layout *)

Lemma align_up_1 offset : align_up offset 1 = offset.
Proof. unfold align_up. rewrite Z.div_1_r. lia. Qed.

Lemma member_align_packed m : member_align 1 m = 1.
Proof. unfold member_align, alignof. destruct (member_type m); reflexivity. Qed.

Lemma end_offset_packed ms : forall offset,
  end_offset 1 offset ms = offset + payload_size ms.
Proof.
  induction ms as [|m ms IH]; intros offset; cbn [end_offset payload_size foldr].
  - lia.
  - rewrite member_align_packed, align_up_1, IH. unfold payload_size. lia.
Qed.

Lemma struct_align_packed ms : struct_align 1 ms = 1.
Proof.
  induction ms as [|m ms IH]; [reflexivity|].
  cbn [struct_align foldr]. fold (struct_align 1 ms).
  rewrite member_align_packed, IH. reflexivity.
Qed.

(** A struct declared under [#pragma pack(push, 1)] has no padding. *)
Lemma sizeof_struct_packed ms : sizeof_struct 1 ms = payload_size ms.
Proof.
  unfold sizeof_struct. by rewrite struct_align_packed, align_up_1, end_offset_packed.
Qed.

(** C8. The packed trace records: the members of [input_instr] follow one
    another without holes at offsets 0, 8, 9, 10, 12, 16 and 32, for 64 bytes
    in all; [cloudsuite_instr] has four destinations and a trailing two-byte
    [asid], for 84 bytes.  These are the record sizes [main] reads. *)
Theorem trace_record_layout :
  layout_from 1 0 input_instr
  = [("ip", 0, 8); ("is_branch", 8, 1); ("branch_taken", 9, 1);
     ("destination_registers", 10, 2); ("source_registers", 12, 4);
     ("destination_memory", 16, 16); ("source_memory", 32, 32)] /\
  sizeof_struct 1 input_instr = 64 /\
  sizeof_struct 1 input_instr = payload_size input_instr /\
  layout_from 1 0 cloudsuite_instr
  = [("ip", 0, 8); ("is_branch", 8, 1); ("branch_taken", 9, 1);
     ("destination_registers", 10, 4); ("source_registers", 14, 4);
     ("destination_memory", 18, 32); ("source_memory", 50, 32); ("asid", 82, 2)] /\
  sizeof_struct 1 cloudsuite_instr = 84 /\
  sizeof_struct 1 cloudsuite_instr = payload_size cloudsuite_instr /\
  rec_size false = 64 /\ rec_size true = 84.
Proof.
  split; [reflexivity|]. split; [reflexivity|].
  split; [apply sizeof_struct_packed|].
  split; [reflexivity|]. split; [reflexivity|].
  split; [apply sizeof_struct_packed|].
  split; reflexivity.
Qed.

(** * Further properties of the allocator *)

Lemma bind_assoc {A B C} (m : M A) (k : A -> M B) (h : B -> M C) s :
  bind (bind m k) h s = bind m (fun a => bind (k a) h) s.
Proof. unfold bind. by destruct (m s). Qed.

Lemma prf_at_raise s i : ~ is_phys_reg s i -> prf_at i s = Raise OutOfRange s.
Proof. intros H. unfold prf_at. by rewrite index_of_None. Qed.

Lemma isValid_eq s p r :
  0 <= p -> physical_register_file s !! Z.to_nat p = Some r -> isValid p s = Ok (valid r) s.
Proof. intros Hp Hr. unfold isValid, bind. by rewrite (prf_at_eq s p r Hp Hr). Qed.

Lemma complete_dest_register_eq s p r :
  0 <= p -> physical_register_file s !! Z.to_nat p = Some r ->
  complete_dest_register p s
  = Ok tt (set_physical_register_file
             (<[Z.to_nat p := set_valid true r]> (physical_register_file s)) s).
Proof.
  intros Hp Hr. unfold complete_dest_register, bind.
  rewrite (prf_at_eq s p r Hp Hr).
  apply prf_at_assign_eq. by apply (lookup_index _ _ r).
Qed.

(** ** Completion *)

(** X1. [complete_dest_register p] on a slot of the register file sets its
    [valid] flag and nothing else: the other three fields of the slot, the
    other slots, both RATs, the free list and the history stay as they were;
    completing again changes nothing; [isValid p] then answers [true].  For
    an id that is no slot the call throws [std::out_of_range] and leaves the
    allocator untouched. *)
Theorem complete_dest_register_spec (s : RegisterAllocator) (p : Z) :
  (~ is_phys_reg s p -> complete_dest_register p s = Raise OutOfRange s) /\
  (forall r,
      0 <= p -> physical_register_file s !! Z.to_nat p = Some r ->
      exists s',
        complete_dest_register p s = Ok tt s' /\
        physical_register_file s' !! Z.to_nat p
          = Some (mk_physical_register (arch_reg_index r) (producing_instruction_id r)
                    true (busy r)) /\
        (forall n, n <> Z.to_nat p ->
                   physical_register_file s' !! n = physical_register_file s !! n) /\
        frontend_RAT s' = frontend_RAT s /\ backend_RAT s' = backend_RAT s /\
        free_registers s' = free_registers s /\ rename_history s' = rename_history s /\
        count_busy s' = count_busy s /\
        isValid p s' = Ok true s' /\
        complete_dest_register p s' = Ok tt s').
Proof.
  split.
  - intros Hp. unfold complete_dest_register, bind. by rewrite prf_at_raise.
  - intros r Hp Hr. pose proof (lookup_lt_Some _ _ _ Hr) as Hlt.
    eexists. split; [by apply complete_dest_register_eq|]. cbn.
    split; [by apply list_lookup_insert_eq|].
    split; [intros n Hn; by apply list_lookup_insert_ne|].
    do 4 (split; [reflexivity|]).
    split.
    { unfold count_busy. cbn [physical_register_file set_physical_register_file].
      pose proof (busy_filter_insert _ _ r (set_valid true r) Hr) as Hins.
      unfold busy_weight in Hins. cbn [busy set_valid] in Hins. lia. }
    split.
    { rewrite (isValid_eq _ p (set_valid true r) Hp); [reflexivity|].
      cbn. by apply list_lookup_insert_eq. }
    rewrite (complete_dest_register_eq _ p (set_valid true r) Hp);
      [|cbn; by apply list_lookup_insert_eq].
    unfold set_physical_register_file. cbn. by rewrite list_insert_insert_eq.
Qed.

Lemma complete_dest_register_spec_witness :
  exists s',
    complete_dest_register 0 scenario_first_dest = Ok tt s' /\
    isValid 0 s' = Ok true s' /\
    complete_dest_register 99 scenario_first_dest = Raise OutOfRange scenario_first_dest.
Proof.
  destruct (complete_dest_register_spec scenario_first_dest 0) as [_ H].
  destruct (H (mk_physical_register 5 100 false true))
    as (s' & Hrun & _ & _ & _ & _ & _ & _ & _ & Hvalid & _); [done|reflexivity|].
  exists s'. split; [exact Hrun|]. split; [exact Hvalid|].
  apply (proj1 (complete_dest_register_spec scenario_first_dest 99)).
  unfold is_phys_reg. vm_compute. intros [_ Hlt]. discriminate Hlt.
Defined.

(** ** Allocation order *)

Lemma rename_dest_collect_run reqs : forall s,
  Forall (fun r => 0 <= r.1 < Z.of_nat (length (frontend_RAT s))) reqs ->
  Forall (is_phys_reg s) (free_registers s) ->
  (length reqs <= length (free_registers s))%nat ->
  exists s', rename_dest_collect reqs s = Ok (take (length reqs) (free_registers s)) s' /\
             free_registers s' = drop (length reqs) (free_registers s).
Proof.
  induction reqs as [|[reg id] reqs IH]; intros s Hreqs Hfree Hlen.
  - exists s. split; reflexivity.
  - destruct (free_registers s) as [|p rest] eqn:E; [cbn in Hlen; lia|].
    apply Forall_cons in Hreqs as [Hreg Hreqs]. apply Forall_cons in Hfree as [Hp Hrest].
    cbn [fst] in Hreg.
    cbn [rename_dest_collect]. unfold bind at 1. cbn [fst snd].
    rewrite (rename_dest_register_eq s reg id p rest E Hreg Hp).
    cbv beta iota. unfold bind at 1.
    match goal with |- context [rename_dest_collect reqs ?s1] =>
      destruct (IH s1) as (s' & Hrun & Hs') end.
    + cbn [frontend_RAT]. by rewrite length_insert.
    + unfold is_phys_reg in *. cbn [free_registers physical_register_file].
      by rewrite length_insert.
    + cbn [free_registers]. cbn in Hlen. lia.
    + rewrite Hrun. cbn [free_registers] in Hs' |- *. exists s'. split; [reflexivity|exact Hs'].
Qed.

(** X2. The free list is a queue.  Destination renames in a row return the
    registers of the free list from its front, in order, and remove them
    from it; and a register released by [free_register] is handed out again
    only after every register that was already free. *)
Theorem rename_dest_register_FIFO (s : RegisterAllocator) (reqs : list (Z * Z)) :
  RATs_sized s ->
  Forall (fun r => is_arch_reg r.1) reqs ->
  Forall (is_phys_reg s) (free_registers s) ->
  ((length reqs <= length (free_registers s))%nat ->
   exists s', rename_dest_collect reqs s = Ok (take (length reqs) (free_registers s)) s' /\
              free_registers s' = drop (length reqs) (free_registers s)) /\
  (forall p, is_phys_reg s p -> length reqs = S (length (free_registers s)) ->
   exists s1 s', free_register p s = Ok tt s1 /\
                 rename_dest_collect reqs s1 = Ok (free_registers s ++ [p]) s' /\
                 free_registers s' = []).
Proof.
  intros [Hf _] Hreqs Hfree.
  assert (Forall (fun r => 0 <= r.1 < Z.of_nat (length (frontend_RAT s))) reqs) as Hreqs'
      by (rewrite Hf; exact Hreqs).
  split.
  - intros Hlen. by apply rename_dest_collect_run.
  - intros p Hp Hlen. eexists.
    destruct (rename_dest_collect_run reqs
                (mk_RegisterAllocator (frontend_RAT s) (backend_RAT s) (free_registers s ++ [p])
                   (<[Z.to_nat p := free_slot]> (physical_register_file s))
                   (rename_history s)))
      as (s' & Hrun & Hs').
    + exact Hreqs'.
    + cbn [free_registers]. apply Forall_app. split.
      * eapply Forall_impl; [exact Hfree|]. intros q Hq. unfold is_phys_reg in *.
        cbn [physical_register_file]. by rewrite length_insert.
      * apply Forall_singleton. unfold is_phys_reg in *.
        cbn [physical_register_file]. by rewrite length_insert.
    + cbn [free_registers]. rewrite length_app. cbn [length]. lia.
    + exists s'. split; [by apply free_register_eq|].
      cbn [free_registers] in Hrun, Hs'.
      rewrite take_ge in Hrun by (rewrite length_app; cbn [length]; lia).
      rewrite drop_ge in Hs' by (rewrite length_app; cbn [length]; lia).
      split; [exact Hrun|exact Hs'].
Qed.

Lemma rename_dest_register_FIFO_witness :
  exists s', rename_dest_collect [(5, 100); (6, 101); (5, 102)] allocator8 = Ok [0; 1; 2] s' /\
             free_registers s' = [3; 4; 5; 6; 7].
Proof.
  refine (proj1 (rename_dest_register_FIFO allocator8 [(5, 100); (6, 101); (5, 102)] _ _ _) _).
  - split; vm_compute; reflexivity.
  - repeat constructor; vm_compute; intuition discriminate.
  - repeat constructor; vm_compute; intuition discriminate.
  - vm_compute. lia.
Defined.

(** ** The rename history *)

Lemma retire_rename_eq s id :
  retire_rename id s = Ok tt (set_rename_history (delete id (rename_history s)) s).
Proof.
  unfold retire_rename, bind, rename_history_find.
  destruct (rename_history s !! id) eqn:E; [reflexivity|].
  rewrite delete_id by done. by destruct s.
Qed.

(** X3. [retire_rename id] always returns; it removes the history entry of
    [id] and nothing else (the entries of other instructions, both RATs, the
    free list and the register file are as before), and a later
    [undo_rename id] finds nothing to roll back. *)
Theorem retire_rename_spec (s : RegisterAllocator) (id : Z) :
  exists s',
    retire_rename id s = Ok tt s' /\
    rename_history s' = delete id (rename_history s) /\
    rename_history s' !! id = None /\
    (forall id', id' <> id -> rename_history s' !! id' = rename_history s !! id') /\
    frontend_RAT s' = frontend_RAT s /\ backend_RAT s' = backend_RAT s /\
    free_registers s' = free_registers s /\
    physical_register_file s' = physical_register_file s /\
    undo_rename id s' = Ok tt s' /\
    (rename_history s !! id = None -> s' = s).
Proof.
  eexists. split; [apply retire_rename_eq|].
  cbn [set_rename_history rename_history frontend_RAT backend_RAT free_registers
       physical_register_file].
  split; [reflexivity|]. split; [apply lookup_delete_eq|].
  split; [intros id' Hne; by apply lookup_delete_ne|].
  do 4 (split; [reflexivity|]). split.
  - apply undo_rename_absent. cbn. apply lookup_delete_eq.
  - intros Hnone. rewrite delete_id by done. by destruct s.
Qed.

Lemma record_rename_eq s id a old new :
  record_rename id a old new s
  = Ok tt (set_rename_history
             (<[id := default [] (rename_history s !! id) ++ [mk_RenameCheckpoint a old new id]]>
                (rename_history s)) s).
Proof. reflexivity. Qed.

Lemma record_rename_all_eq id triples : forall s,
  triples <> [] ->
  record_rename_all id triples s
  = Ok tt (set_rename_history
             (<[id := default [] (rename_history s !! id)
                      ++ map (fun t => mk_RenameCheckpoint t.1.1 t.1.2 t.2 id) triples]>
                (rename_history s)) s).
Proof.
  induction triples as [|t triples IH]; intros s Hne; [done|].
  unfold record_rename_all. cbn [for_each]. unfold bind. rewrite record_rename_eq.
  destruct triples as [|t' triples].
  - reflexivity.
  - fold (record_rename_all id (t' :: triples)). rewrite IH by done.
    unfold set_rename_history. cbn [frontend_RAT backend_RAT free_registers
      physical_register_file rename_history].
    rewrite lookup_insert_eq, insert_insert_eq.
    change (default [] (Some ?x)) with x. cbn [map].
    by rewrite <- app_assoc.
Qed.

(** X4. The checkpoints that successive [record_rename] calls file under
    one instruction id are kept in call order behind the ones already there,
    each carrying that id; no other entry and no other part of the allocator
    changes; and if the id had no entry, [retire_rename] brings the
    allocator back to exactly the state before the calls. *)
Theorem record_rename_all_spec (s : RegisterAllocator) (id : Z) (triples : list (Z * Z * Z)) :
  triples <> [] ->
  exists s',
    record_rename_all id triples s = Ok tt s' /\
    rename_history s' !! id
      = Some (default [] (rename_history s !! id)
              ++ map (fun t => mk_RenameCheckpoint t.1.1 t.1.2 t.2 id) triples) /\
    (forall id', id' <> id -> rename_history s' !! id' = rename_history s !! id') /\
    frontend_RAT s' = frontend_RAT s /\ backend_RAT s' = backend_RAT s /\
    free_registers s' = free_registers s /\
    physical_register_file s' = physical_register_file s /\
    (rename_history s !! id = None -> retire_rename id s' = Ok tt s).
Proof.
  intros Hne. eexists. split; [by apply record_rename_all_eq|].
  cbn [set_rename_history rename_history frontend_RAT backend_RAT free_registers
       physical_register_file].
  split; [apply lookup_insert_eq|].
  split; [intros id' Hid; by apply lookup_insert_ne|].
  do 4 (split; [reflexivity|]).
  intros Hnone. rewrite retire_rename_eq. cbn.
  rewrite delete_insert_id by done. by destruct s.
Qed.

Lemma record_rename_all_spec_witness :
  exists s',
    record_rename_all 200 [(7, -1, 0); (7, 0, 1)] allocator8 = Ok tt s' /\
    rename_history s' !! 200
      = Some [mk_RenameCheckpoint 7 (-1) 0 200; mk_RenameCheckpoint 7 0 1 200] /\
    retire_rename 200 s' = Ok tt allocator8.
Proof.
  destruct (record_rename_all_spec allocator8 200 [(7, -1, 0); (7, 0, 1)])
    as (s' & Hrun & Hhist & _ & _ & _ & _ & _ & Hback); [discriminate|].
  exists s'. split; [exact Hrun|]. split; [exact Hhist|].
  apply Hback. reflexivity.
Defined.

(** ** Pipeline flush *)

Lemma isAllocated_eq s a p :
  0 <= a -> frontend_RAT s !! Z.to_nat a = Some p ->
  isAllocated a s = Ok (negb (p =? -1)) s.
Proof.
  intros Ha Hl. unfold isAllocated, bind. by rewrite (frontend_RAT_get_eq s a p Ha Hl).
Qed.

(** X5. [reset_frontend_RAT] always returns and makes the frontend RAT a
    copy of the backend RAT; the backend RAT, the free list, the register
    file and the history are untouched (nothing is released); a second reset
    changes nothing; afterwards [get_current_mapping] and [isAllocated]
    answer from the retired mapping. *)
Theorem reset_frontend_RAT_spec (s : RegisterAllocator) :
  exists s',
    reset_frontend_RAT s = Ok tt s' /\
    frontend_RAT s' = backend_RAT s /\ backend_RAT s' = backend_RAT s /\
    free_registers s' = free_registers s /\
    physical_register_file s' = physical_register_file s /\
    rename_history s' = rename_history s /\
    reset_frontend_RAT s' = Ok tt s' /\
    (forall a p, 0 <= a -> backend_RAT s !! Z.to_nat a = Some p ->
                 get_current_mapping a s' = Ok p s' /\
                 isAllocated a s' = Ok (negb (p =? -1)) s').
Proof.
  eexists. split; [reflexivity|]. cbn [frontend_RAT backend_RAT free_registers
    physical_register_file rename_history].
  do 5 (split; [reflexivity|]). split; [reflexivity|].
  intros a p Ha Hl. split.
  - by apply get_current_mapping_eq.
  - by apply isAllocated_eq.
Qed.

(** X6. A flush without the rollback walk leaks.  After a recorded
    destination rename on an allocator whose free list has no duplicates,
    [reset_frontend_RAT] alone puts the frontend RAT back to the backend
    RAT, but the register [p] taken by the rename is still busy and is not
    in the free list, and its checkpoint is still in the history. *)
Theorem rename_then_reset_leaks (s : RegisterAllocator) (a id p : Z) (rest : list Z) :
  RATs_sized s -> is_arch_reg a ->
  free_registers s = p :: rest -> NoDup (free_registers s) -> is_phys_reg s p ->
  exists s' old,
    (rename_dest a id >> reset_frontend_RAT) s = Ok tt s' /\
    frontend_RAT s' = backend_RAT s /\
    backend_RAT s' = backend_RAT s /\
    free_registers s' = rest /\
    (p ∉ free_registers s') /\
    S (count_free_registers s') = count_free_registers s /\
    physical_register_file s' !! Z.to_nat p = Some (mk_physical_register a id false true) /\
    frontend_RAT s !! Z.to_nat a = Some old /\
    rename_history s' !! id
      = Some (default [] (rename_history s !! id) ++ [mk_RenameCheckpoint a old p id]).
Proof.
  intros [Hf Hb] Ha Hfree Hnd Hp.
  destruct (index_lookup (frontend_RAT s) a) as [old Hold]; [rewrite Hf; exact Ha|].
  eexists. exists old. unfold bind.
  rewrite (rename_dest_eq s a id old p rest (proj1 Ha) Hold Hfree Hp).
  split; [reflexivity|].
  unfold count_free_registers.
  cbn [frontend_RAT backend_RAT free_registers physical_register_file rename_history].
  do 3 (split; [reflexivity|]).
  split; [rewrite Hfree in Hnd; by apply NoDup_cons in Hnd as [Hnotin _]|].
  split; [by rewrite Hfree|].
  split.
  - rewrite to_uint16_arch_reg by done. apply list_lookup_insert_eq.
    unfold is_phys_reg in Hp. lia.
  - split; [exact Hold|apply lookup_insert_eq].
Qed.

Lemma rename_then_reset_leaks_witness :
  exists s',
    (rename_dest 5 100 >> reset_frontend_RAT) allocator8 = Ok tt s' /\
    frontend_RAT s' = backend_RAT allocator8 /\
    free_registers s' = [1; 2; 3; 4; 5; 6; 7] /\
    (0 ∉ free_registers s') /\
    physical_register_file s' !! 0%nat = Some (mk_physical_register 5 100 false true).
Proof.
  destruct (rename_then_reset_leaks allocator8 5 100 0 [1; 2; 3; 4; 5; 6; 7])
    as (s' & old & Hrun & Hfront & _ & Hfree & Hnotin & _ & Hslot & _).
  - split; vm_compute; reflexivity.
  - unfold is_arch_reg. vm_compute. split; [discriminate|reflexivity].
  - reflexivity.
  - apply NoDup_ListNoDup. change (free_registers allocator8) with [0; 1; 2; 3; 4; 5; 6; 7].
    repeat (constructor; [cbn; intuition discriminate|]). constructor.
  - unfold is_phys_reg. vm_compute. split; [discriminate|reflexivity].
  - exists s'. split; [exact Hrun|]. split; [exact Hfront|]. split; [exact Hfree|].
    split; [exact Hnotin|exact Hslot].
Defined.

Lemma retire_rename_spec_witness :
  exists s',
    retire_rename 200 scenario_lifo = Ok tt s' /\
    rename_history s' !! 200 = None /\
    undo_rename 200 s' = Ok tt s' /\
    free_registers s' = free_registers scenario_lifo.
Proof.
  destruct (retire_rename_spec scenario_lifo 200)
    as (s' & Hrun & _ & Hnone & _ & _ & _ & Hfree & _ & Hundo & _).
  exists s'. split; [exact Hrun|]. split; [exact Hnone|]. split; [exact Hundo|exact Hfree].
Defined.

Lemma reset_frontend_RAT_spec_witness :
  exists s',
    reset_frontend_RAT scenario_lifo = Ok tt s' /\
    get_current_mapping 7 s' = Ok (-1) s' /\
    isAllocated 7 s' = Ok false s'.
Proof.
  destruct (reset_frontend_RAT_spec scenario_lifo) as (s' & Hrun & _ & _ & _ & _ & _ & _ & Hq).
  exists s'. split; [exact Hrun|].
  apply (Hq 7 (-1)); [done|reflexivity].
Defined.

(** ** Queries *)

Lemma frontend_RAT_get_undefined s a :
  ~ (0 <= a < Z.of_nat (length (frontend_RAT s))) -> frontend_RAT_get a s = Undefined.
Proof. intros H. unfold frontend_RAT_get. by rewrite index_of_None. Qed.

(** X7. [get_current_mapping] is the bounds-checked read of the frontend
    RAT: it always returns and never changes the allocator; for an index
    outside the array it answers [-1], inside it answers the entry, which
    [isAllocated] compares with [-1].  [isAllocated] itself has no bounds
    check: outside the array its read is undefined. *)
Theorem get_current_mapping_spec (s : RegisterAllocator) (a : Z) :
  exists p,
    get_current_mapping a s = Ok p s /\
    (~ (0 <= a < Z.of_nat (length (frontend_RAT s))) ->
     p = -1 /\ isAllocated a s = Undefined) /\
    (0 <= a < Z.of_nat (length (frontend_RAT s)) ->
     frontend_RAT s !! Z.to_nat a = Some p /\
     isAllocated a s = Ok (negb (p =? -1)) s).
Proof.
  destruct (decide (0 <= a < Z.of_nat (length (frontend_RAT s)))) as [Hin|Hout].
  - destruct (index_lookup (frontend_RAT s) a Hin) as [p Hp].
    exists p. split; [apply get_current_mapping_eq; [lia|done]|].
    split; [done|]. intros _. split; [done|]. apply isAllocated_eq; [lia|done].
  - exists (-1). split.
    + unfold get_current_mapping.
      destruct (Z.ltb_spec a 0); [reflexivity|].
      destruct (Z.leb_spec (Z.of_nat (length (frontend_RAT s))) a); [reflexivity|lia].
    + split; [|done]. intros _. split; [reflexivity|].
      unfold isAllocated, bind. by rewrite frontend_RAT_get_undefined.
Qed.

Lemma get_current_mapping_spec_witness :
  get_current_mapping 7 scenario_lifo = Ok 1 scenario_lifo /\
  isAllocated 7 scenario_lifo = Ok true scenario_lifo /\
  get_current_mapping 300 scenario_lifo = Ok (-1) scenario_lifo /\
  isAllocated 300 scenario_lifo = Undefined.
Proof.
  destruct (get_current_mapping_spec scenario_lifo 7) as (p & Hget & _ & Hin).
  destruct Hin as [Hp Halloc]; [vm_compute; split; [discriminate|reflexivity]|].
  assert (p = 1) as -> by (vm_compute in Hp; congruence).
  destruct (get_current_mapping_spec scenario_lifo 300) as (q & Hget' & Hout & _).
  destruct Hout as [-> Hundef]; [vm_compute; intros [_ H]; discriminate H|].
  split; [exact Hget|]. split; [exact Halloc|]. split; [exact Hget'|exact Hundef].
Defined.

Lemma get_producer_eq s p r :
  0 <= p -> physical_register_file s !! Z.to_nat p = Some r ->
  get_producer p s = Ok (producing_instruction_id r) s.
Proof.
  intros Hp Hr. unfold get_producer.
  rewrite index_of_Some by (by apply (lookup_index _ _ r)). by rewrite Hr.
Qed.

Lemma frontend_RAT_set_Ok_full reg p s u s' :
  frontend_RAT_set reg p s = Ok u s' ->
  0 <= reg < Z.of_nat (length (frontend_RAT s)) /\
  s' = mk_RegisterAllocator (<[Z.to_nat reg := p]> (frontend_RAT s)) (backend_RAT s)
         (free_registers s) (physical_register_file s) (rename_history s).
Proof.
  unfold frontend_RAT_set. destruct (index_of _ reg) as [n|] eqn:E; [|discriminate].
  apply index_of_inv in E as [E ->]. by intros [= _ <-].
Qed.

Lemma rename_dest_register_Ok_inv reg id s p s' :
  rename_dest_register reg id s = Ok p s' ->
  exists rest,
    free_registers s = p :: rest /\
    0 <= reg < Z.of_nat (length (frontend_RAT s)) /\
    is_phys_reg s p /\
    s' = mk_RegisterAllocator
           (<[Z.to_nat reg := p]> (frontend_RAT s)) (backend_RAT s) rest
           (<[Z.to_nat p := mk_physical_register (to_uint16 reg) id false true]>
              (physical_register_file s))
           (rename_history s).
Proof.
  intros H. pose proof H as H0. unfold rename_dest_register in H.
  apply bind_Ok_inv in H as (b & s1 & He & H).
  unfold free_registers_empty in He. injection He as <- <-.
  destruct (free_registers s) as [|q rest] eqn:Hfree; [discriminate|].
  apply bind_Ok_inv in H as (q' & s1 & Hfront & H).
  unfold free_registers_front in Hfront. rewrite Hfree in Hfront. injection Hfront as <- <-.
  apply bind_Ok_inv in H as (u2 & s2 & Hpop & H).
  unfold free_registers_pop in Hpop. rewrite Hfree in Hpop. injection Hpop as _ <-.
  apply bind_Ok_inv in H as (u3 & s3 & Hset & H).
  apply frontend_RAT_set_Ok_full in Hset as [Hreg ->]. cbn [frontend_RAT] in Hreg.
  apply bind_Ok_inv in H as (u4 & s4 & Hassign & H).
  apply prf_at_assign_Ok_inv in Hassign as (Hq & _ & _).
  unfold is_phys_reg in Hq. cbn [physical_register_file] in Hq.
  apply ret_Ok_inv in H as [-> _].
  exists rest. split; [reflexivity|]. split; [exact Hreg|]. split; [exact Hq|].
  rewrite (rename_dest_register_eq s reg id q rest Hfree Hreg Hq) in H0. congruence.
Qed.

(** X8. [get_producer] always returns and never changes the allocator: it
    answers 0 for an id that is no slot, the slot's producer otherwise; and
    a slot released by [free_register] answers 0 again. *)
Theorem get_producer_spec (s : RegisterAllocator) (p : Z) :
  (exists v, get_producer p s = Ok v s) /\
  (~ is_phys_reg s p -> get_producer p s = Ok 0 s) /\
  (forall r, 0 <= p -> physical_register_file s !! Z.to_nat p = Some r ->
             get_producer p s = Ok (producing_instruction_id r) s) /\
  (forall s', free_register p s = Ok tt s' -> get_producer p s' = Ok 0 s').
Proof.
  assert (~ is_phys_reg s p -> get_producer p s = Ok 0 s) as Hout.
  { intros Hp. unfold get_producer. by rewrite index_of_None. }
  split; [|split; [exact Hout|split]].
  - destruct (decide (is_phys_reg s p)) as [Hp|Hp]; [|eauto].
    destruct (index_lookup _ p Hp) as [r Hr]. exists (producing_instruction_id r).
    apply get_producer_eq; [apply Hp|done].
  - intros r Hp Hr. by apply get_producer_eq.
  - intros s' Hfree.
    destruct (decide (is_phys_reg s p)) as [Hp|Hp].
    + rewrite free_register_eq in Hfree by done. injection Hfree as <-.
      rewrite (get_producer_eq _ p free_slot); [reflexivity|apply Hp|].
      cbn. apply list_lookup_insert_eq. unfold is_phys_reg in Hp. lia.
    + unfold free_register, bind in Hfree. rewrite prf_at_assign_raise in Hfree by done.
      discriminate.
Qed.

Lemma get_producer_spec_witness :
  get_producer 0 scenario_first_dest = Ok 100 scenario_first_dest /\
  get_producer (-1) scenario_first_dest = Ok 0 scenario_first_dest /\
  exists s', free_register 0 scenario_first_dest = Ok tt s' /\ get_producer 0 s' = Ok 0 s'.
Proof.
  destruct (get_producer_spec scenario_first_dest 0) as (_ & _ & Hin & Hfree).
  destruct (get_producer_spec scenario_first_dest (-1)) as (_ & Hout & _ & _).
  split; [apply (Hin (mk_physical_register 5 100 false true)); [done|reflexivity]|].
  split; [apply Hout; unfold is_phys_reg; lia|].
  eexists. split; [vm_compute; reflexivity|]. apply Hfree. vm_compute. reflexivity.
Defined.

Lemma to_int_small n : 0 <= n < 2147483648 -> to_int n = n.
Proof. intros H. unfold to_int. rewrite Z.mod_small by lia. lia. Qed.

Lemma slot_valid_isValid s p :
  is_phys_reg s p -> isValid p s = Ok (slot_valid s p) s.
Proof.
  intros Hp. destruct (index_lookup _ p Hp) as [r Hr].
  unfold slot_valid. rewrite Hr. apply isValid_eq; [apply Hp|done].
Qed.

Lemma bind_Ok {A B} (m : M A) (k : A -> M B) s a s' :
  m s = Ok a s' -> bind m k s = k a s'.
Proof. intros H. unfold bind. by rewrite H. Qed.

Lemma bind_Raise {A B} (m : M A) (k : A -> M B) s e s' :
  m s = Raise e s' -> bind m k s = Raise e s'.
Proof. intros H. unfold bind. by rewrite H. Qed.

Lemma not_valid_eq s p :
  is_phys_reg s p ->
  (let* v := isValid p in ret (negb v)) s = Ok (negb (slot_valid s p)) s.
Proof. intros Hp. by rewrite (bind_Ok _ _ _ _ _ (slot_valid_isValid s p Hp)). Qed.

Lemma not_valid_raise s p :
  ~ is_phys_reg s p -> (let* v := isValid p in ret (negb v)) s = Raise OutOfRange s.
Proof.
  intros Hp. apply bind_Raise. unfold isValid. apply bind_Raise. by apply prf_at_raise.
Qed.

Lemma count_if_not_valid srcs s :
  Forall (is_phys_reg s) srcs ->
  count_if (fun reg => let* v := isValid reg in ret (negb v)) srcs s
  = Ok (Z.of_nat (length (filter (fun p => slot_valid s p = false) srcs))) s.
Proof.
  induction srcs as [|p srcs IH]; intros Hall; [reflexivity|].
  apply Forall_cons in Hall as [Hp Hall].
  cbn [count_if]. rewrite (bind_Ok _ _ _ _ _ (not_valid_eq s p Hp)).
  rewrite (bind_Ok _ _ _ _ _ (IH Hall)). unfold ret.
  destruct (slot_valid s p) eqn:E; cbn [negb].
  - rewrite filter_cons_False; [reflexivity|]. by rewrite E.
  - rewrite filter_cons_True by done. cbn [length]. f_equal. lia.
Qed.

Lemma count_if_not_valid_raise srcs s :
  Exists (fun p => ~ is_phys_reg s p) srcs ->
  count_if (fun reg => let* v := isValid reg in ret (negb v)) srcs s = Raise OutOfRange s.
Proof.
  induction srcs as [|p srcs IH]; intros Hex; [by apply Exists_nil in Hex|].
  cbn [count_if].
  destruct (decide (is_phys_reg s p)) as [Hp|Hp].
  - rewrite (bind_Ok _ _ _ _ _ (not_valid_eq s p Hp)).
    apply Exists_cons in Hex as [Hex|Hex]; [done|]. by apply bind_Raise, IH.
  - by apply bind_Raise, not_valid_raise.
Qed.

Lemma filter_length_0_Forall {A} (P : A -> Prop) `{forall x, Decision (P x)} (l : list A) :
  length (filter P l) = 0%nat <-> Forall (fun x => ~ P x) l.
Proof.
  induction l as [|x l IH]; [by split|].
  destruct (decide (P x)) as [Hx|Hx].
  - rewrite filter_cons_True by done. split; [discriminate|].
    intros [Hnx _]%Forall_cons. done.
  - rewrite filter_cons_False by done. rewrite IH, Forall_cons. tauto.
Qed.

(** X9. [count_reg_dependencies] on the renamed source registers of an
    instruction: when all of them are slots, it returns the number of those
    whose slot is not valid and leaves the allocator unchanged, so it
    answers 0 exactly when every source is valid; when one of them is no
    slot (an unmapped [-1], say) [isValid] throws [std::out_of_range]. *)
Theorem count_reg_dependencies_spec (s : RegisterAllocator) (srcs : list Z) :
  Z.of_nat (length srcs) < 2147483648 ->
  (Forall (is_phys_reg s) srcs ->
   count_reg_dependencies srcs s
   = Ok (Z.of_nat (length (filter (fun p => slot_valid s p = false) srcs))) s /\
   (count_reg_dependencies srcs s = Ok 0 s <->
    Forall (fun p => slot_valid s p = true) srcs)) /\
  (Exists (fun p => ~ is_phys_reg s p) srcs ->
   count_reg_dependencies srcs s = Raise OutOfRange s).
Proof.
  intros Hlen. split.
  - intros Hall.
    assert (count_reg_dependencies srcs s
            = Ok (Z.of_nat (length (filter (fun p => slot_valid s p = false) srcs))) s) as Heq.
    { unfold count_reg_dependencies.
      rewrite (bind_Ok _ _ _ _ _ (count_if_not_valid srcs s Hall)).
      unfold ret. rewrite to_int_small; [reflexivity|].
      pose proof (length_filter (fun p => slot_valid s p = false) srcs). lia. }
    split; [exact Heq|]. rewrite Heq. split.
    + intros [= H0]. assert (length (filter (fun p => slot_valid s p = false) srcs) = 0%nat)
        as H1 by lia.
      apply filter_length_0_Forall in H1. eapply Forall_impl; [exact H1|].
      intros p Hp. cbn beta in Hp. destruct (slot_valid s p); [reflexivity|by destruct Hp].
    + intros Hvalid. do 2 f_equal.
      assert (length (filter (fun p => slot_valid s p = false) srcs) = 0%nat) as ->; [|done].
      apply filter_length_0_Forall. eapply Forall_impl; [exact Hvalid|].
      intros p Hp. by rewrite Hp.
  - intros Hex. unfold count_reg_dependencies.
    by apply bind_Raise, count_if_not_valid_raise.
Qed.

Lemma count_reg_dependencies_spec_witness :
  count_reg_dependencies [0; 1; 2] scenario_retire = Ok 1 scenario_retire /\
  count_reg_dependencies [1; -1] scenario_retire = Raise OutOfRange scenario_retire.
Proof.
  split.
  - rewrite (proj1 (proj1 (count_reg_dependencies_spec scenario_retire [0; 1; 2]
                             ltac:(cbn; lia))
                      ltac:(repeat constructor; vm_compute; intuition discriminate))).
    vm_compute. reflexivity.
  - refine (proj2 (count_reg_dependencies_spec scenario_retire [1; -1] _) _).
    + cbn. lia.
    + apply Exists_cons. right. apply Exists_cons. left. unfold is_phys_reg. lia.
Defined.

(** ** From rename to completion *)

Lemma count_reg_dependencies_single s p :
  is_phys_reg s p ->
  count_reg_dependencies [p] s = Ok (if slot_valid s p then 0 else 1) s.
Proof.
  intros Hp. unfold count_reg_dependencies.
  rewrite (bind_Ok _ _ _ _ _ (count_if_not_valid [p] s ltac:(by apply Forall_singleton))).
  unfold ret. destruct (slot_valid s p) eqn:E.
  - rewrite filter_cons_False; [reflexivity|]. by rewrite E.
  - rewrite filter_cons_True by done. reflexivity.
Qed.

(** X10. The life of a renamed destination.  When [rename_dest_register a id]
    returns [p], the frontend RAT maps [a] to [p], the producer of [p] is
    [id], [p] is busy and not valid, and an instruction reading [p] has one
    unready source.  [complete_dest_register p] then returns, after which
    [p] is valid, still busy, still produced by [id], and no longer counts
    as a dependency. *)
Theorem renamed_destination_lifecycle (s s1 : RegisterAllocator) (a id p : Z) :
  rename_dest_register a id s = Ok p s1 ->
  get_current_mapping a s1 = Ok p s1 /\
  get_producer p s1 = Ok id s1 /\
  isValid p s1 = Ok false s1 /\
  count_reg_dependencies [p] s1 = Ok 1 s1 /\
  exists s2,
    complete_dest_register p s1 = Ok tt s2 /\
    isValid p s2 = Ok true s2 /\
    get_producer p s2 = Ok id s2 /\
    count_reg_dependencies [p] s2 = Ok 0 s2 /\
    physical_register_file s2 !! Z.to_nat p
      = Some (mk_physical_register (to_uint16 a) id true true).
Proof.
  intros H. apply rename_dest_register_Ok_inv in H as (rest & Hfree & Ha & Hp & ->).
  assert (Z.to_nat p < length (physical_register_file s))%nat as Hlt
      by (unfold is_phys_reg in Hp; lia).
  set (r := mk_physical_register (to_uint16 a) id false true).
  set (s1 := mk_RegisterAllocator _ _ _ _ _).
  assert (physical_register_file s1 !! Z.to_nat p = Some r) as Hr
      by (cbn; by apply list_lookup_insert_eq).
  assert (is_phys_reg s1 p) as Hp1
      by (unfold is_phys_reg in *; cbn [s1 physical_register_file]; by rewrite length_insert).
  split.
  { apply get_current_mapping_eq; [lia|]. cbn. apply list_lookup_insert_eq. lia. }
  split; [exact (get_producer_eq s1 p r (proj1 Hp) Hr)|].
  split; [exact (isValid_eq s1 p r (proj1 Hp) Hr)|].
  split.
  { rewrite (count_reg_dependencies_single s1 p Hp1).
    unfold slot_valid. rewrite Hr. reflexivity. }
  set (s2 := set_physical_register_file
               (<[Z.to_nat p := set_valid true r]> (physical_register_file s1)) s1).
  assert (physical_register_file s2 !! Z.to_nat p = Some (set_valid true r)) as Hr2.
  { cbn. apply list_lookup_insert_eq. by rewrite length_insert. }
  assert (is_phys_reg s2 p) as Hp2.
  { unfold is_phys_reg in *. cbn [s2 set_physical_register_file physical_register_file].
    by rewrite length_insert. }
  exists s2. split; [exact (complete_dest_register_eq s1 p r (proj1 Hp) Hr)|].
  split; [exact (isValid_eq s2 p _ (proj1 Hp) Hr2)|].
  split; [exact (get_producer_eq s2 p _ (proj1 Hp) Hr2)|].
  split; [|exact Hr2].
  rewrite (count_reg_dependencies_single s2 p Hp2).
  unfold slot_valid. rewrite Hr2. reflexivity.
Qed.

Lemma renamed_destination_lifecycle_witness :
  exists s1 s2,
    rename_dest_register 5 100 allocator8 = Ok 0 s1 /\
    isValid 0 s1 = Ok false s1 /\
    complete_dest_register 0 s1 = Ok tt s2 /\
    isValid 0 s2 = Ok true s2.
Proof.
  eexists.
  assert (rename_dest_register 5 100 allocator8 = Ok 0 _) as Hrun
      by (vm_compute; reflexivity).
  destruct (renamed_destination_lifecycle _ _ 5 100 0 Hrun)
    as (_ & _ & Hinvalid & _ & s2 & Hcomplete & Hvalid & _).
  exists s2. split; [exact Hrun|]. split; [exact Hinvalid|].
  split; [exact Hcomplete|exact Hvalid].
Defined.

(** ** Free-count accounting *)

(** X11. What each returning operation does to [count_free_registers]: a
    destination rename takes one register; a source rename takes one exactly
    when the frontend entry is negative; [free_register] gives one back;
    retirement gives one back exactly when the previous backend mapping is
    not [-1]; [undo_rename] gives back one per recorded checkpoint;
    completion, [record_rename], [retire_rename] and [reset_frontend_RAT]
    leave the count alone. *)
Theorem count_free_accounting (s s' : RegisterAllocator) :
  (forall a id p, rename_dest_register a id s = Ok p s' ->
                  S (count_free_registers s') = count_free_registers s) /\
  (forall a p q, rename_src_register a s = Ok p s' ->
                 frontend_RAT s !! Z.to_nat a = Some q ->
                 if q <? 0 then S (count_free_registers s') = count_free_registers s
                 else count_free_registers s' = count_free_registers s) /\
  (forall p, free_register p s = Ok tt s' ->
             count_free_registers s' = S (count_free_registers s)) /\
  (forall p r old, retire_dest_register p s = Ok tt s' ->
                   physical_register_file s !! Z.to_nat p = Some r ->
                   backend_RAT s !! Z.to_nat (arch_reg_index r) = Some old ->
                   count_free_registers s'
                   = (count_free_registers s + if (old =? -1)%Z then 0 else 1)%nat) /\
  (forall id, undo_rename id s = Ok tt s' ->
              count_free_registers s'
              = (count_free_registers s
                 + length (default [] (rename_history s !! id)))%nat) /\
  (forall p, complete_dest_register p s = Ok tt s' ->
             count_free_registers s' = count_free_registers s) /\
  (forall id a old new, record_rename id a old new s = Ok tt s' ->
                        count_free_registers s' = count_free_registers s) /\
  (forall id, retire_rename id s = Ok tt s' ->
              count_free_registers s' = count_free_registers s) /\
  (reset_frontend_RAT s = Ok tt s' -> count_free_registers s' = count_free_registers s).
Proof.
  unfold count_free_registers. repeat split.
  - intros a id p H. apply rename_dest_register_Ok_inv in H as (rest & Hfree & _ & _ & ->).
    by rewrite Hfree.
  - intros a p q H Hq. unfold rename_src_register in H.
    apply bind_Ok_inv in H as (phys & s1 & Hget & H).
    apply frontend_RAT_get_Ok_inv in Hget as (-> & _ & Hphys).
    assert (phys = q) as -> by congruence.
    destruct (q <? 0).
    + apply bind_Ok_inv in H as (q1 & s1 & Hfront & H).
      apply free_registers_front_Ok_inv in Hfront as (-> & rest & Hfree).
      apply bind_Ok_inv in H as (u2 & s2 & Hpop & H).
      apply free_registers_pop_Ok_inv in Hpop as (_ & q' & Hf2).
      apply bind_Ok_inv in H as (u3 & s3 & Hset & H).
      apply frontend_RAT_set_Ok_inv in Hset as (Hf3 & _).
      apply bind_Ok_inv in H as (u3' & s3' & Hset' & H).
      apply backend_RAT_set_Ok_inv in Hset' as (Hf3' & _).
      apply bind_Ok_inv in H as (u4 & s4 & Hassign & H).
      apply prf_at_assign_Ok_inv in Hassign as (_ & Hf4 & _).
      apply ret_Ok_inv in H as [_ ->].
      rewrite Hf4, Hf3', Hf3, Hf2. reflexivity.
    + by apply ret_Ok_inv in H as [_ ->].
  - intros p H. unfold free_register in H.
    apply bind_Ok_inv in H as (u1 & s1 & Hassign & H).
    apply prf_at_assign_Ok_inv in Hassign as (_ & Hf1 & _).
    unfold free_registers_push in H. injection H as <-. cbn [free_registers].
    rewrite Hf1, length_app. cbn [length]. lia.
  - intros p r old H Hr Hold. unfold retire_dest_register in H.
    apply bind_Ok_inv in H as (r' & s1 & Hat & H).
    apply prf_at_Ok_inv in Hat as (-> & _ & Hr').
    assert (r' = r) as -> by congruence.
    apply bind_Ok_inv in H as (old' & s1 & Hget & H).
    apply backend_RAT_get_Ok_inv in Hget as (-> & _ & Hold').
    assert (old' = old) as -> by congruence.
    apply bind_Ok_inv in H as (u3 & s3 & Hset & H).
    apply backend_RAT_set_Ok_inv in Hset as (Hf3 & _).
    destruct (old =? -1); cbn [negb] in H.
    + apply ret_Ok_inv in H as [_ ->]. rewrite Hf3. lia.
    + unfold free_register in H.
      apply bind_Ok_inv in H as (u1 & s1 & Hassign & H).
      apply prf_at_assign_Ok_inv in Hassign as (_ & Hf1 & _).
      unfold free_registers_push in H. injection H as <-. cbn [free_registers].
      rewrite Hf1, Hf3, length_app. reflexivity.
  - intros id H. apply undo_rename_Ok_inv in H as [[Hnone ->]|(cps & Hcps & ->)].
    + rewrite Hnone. cbn. lia.
    + rewrite Hcps. cbn [default set_rename_history free_registers].
      change (default [] (Some cps)) with cps.
      by rewrite undo_all_spec_free, length_app, length_rev, length_map.
  - intros p H. unfold complete_dest_register in H.
    apply bind_Ok_inv in H as (r & s1 & Hat & H).
    apply prf_at_Ok_inv in Hat as (-> & _ & _).
    apply prf_at_assign_Ok_inv in H as (_ & Hf & _). by rewrite Hf.
  - intros id a old new H. rewrite record_rename_eq in H. by injection H as <-.
  - intros id H. rewrite retire_rename_eq in H. by injection H as <-.
  - intros H. unfold reset_frontend_RAT in H. by injection H as <-.
Qed.

Lemma count_free_accounting_witness :
  undo_rename 200 scenario_lifo = Ok tt (final_state (undo_rename 200) scenario_lifo) /\
  count_free_registers scenario_lifo = 6%nat /\
  count_free_registers (final_state (undo_rename 200) scenario_lifo) = 8%nat.
Proof.
  assert (undo_rename 200 scenario_lifo
          = Ok tt (final_state (undo_rename 200) scenario_lifo)) as Hrun
      by (vm_compute; reflexivity).
  split; [exact Hrun|]. split; [reflexivity|].
  destruct (count_free_accounting scenario_lifo (final_state (undo_rename 200) scenario_lifo))
    as (_ & _ & _ & _ & Hundo & _).
  rewrite (Hundo 200 Hrun). reflexivity.
Defined.

(** ** A stray id at the front of the free list *)

(** X12. The renames are not exception safe.  When the id at the front of
    the free list is no slot of the register file, [rename_dest_register]
    throws [std::out_of_range] only after it has popped the id and stored it
    in the frontend RAT; [rename_src_register] (for an unmapped register)
    has by then stored it in the backend RAT as well.  The allocator is left
    in that state. *)
Theorem rename_with_stray_front (s : RegisterAllocator) (reg id p : Z) (rest : list Z) :
  free_registers s = p :: rest ->
  ~ is_phys_reg s p ->
  0 <= reg < Z.of_nat (length (frontend_RAT s)) ->
  rename_dest_register reg id s
  = Raise OutOfRange
      (mk_RegisterAllocator (<[Z.to_nat reg := p]> (frontend_RAT s)) (backend_RAT s) rest
         (physical_register_file s) (rename_history s)) /\
  (forall q, frontend_RAT s !! Z.to_nat reg = Some q -> q < 0 ->
             0 <= reg < Z.of_nat (length (backend_RAT s)) ->
             rename_src_register reg s
             = Raise OutOfRange
                 (mk_RegisterAllocator (<[Z.to_nat reg := p]> (frontend_RAT s))
                    (<[Z.to_nat reg := p]> (backend_RAT s)) rest
                    (physical_register_file s) (rename_history s))).
Proof.
  intros Hfree Hp Hreg. split.
  - unfold rename_dest_register, bind, free_registers_empty, free_registers_front,
      free_registers_pop.
    repeat (rewrite Hfree; cbv beta iota).
    rewrite frontend_RAT_set_eq by done. by rewrite prf_at_assign_raise.
  - intros q Hq Hneg Hreg'. unfold rename_src_register, bind.
    rewrite (frontend_RAT_get_eq s reg q (proj1 Hreg) Hq).
    destruct (Z.ltb_spec q 0); [|lia].
    unfold free_registers_front, free_registers_pop.
    repeat (rewrite Hfree; cbv beta iota).
    rewrite frontend_RAT_set_eq by done. rewrite backend_RAT_set_eq by done.
    by rewrite prf_at_assign_raise.
Qed.

Lemma rename_with_stray_front_witness :
  exists s',
    rename_dest_register 9 18 scenario_stray_front = Raise OutOfRange s' /\
    free_registers scenario_stray_front = [100] /\
    free_registers s' = [] /\
    frontend_RAT s' !! 9%nat = Some 100.
Proof.
  eexists. split.
  - refine (proj1 (rename_with_stray_front scenario_stray_front 9 18 100 [] _ _ _)).
    + vm_compute. reflexivity.
    + unfold is_phys_reg. vm_compute. intros [_ H]. discriminate H.
    + vm_compute. split; [discriminate|reflexivity].
  - split; [vm_compute; reflexivity|]. split; reflexivity.
Defined.

(** ** Squashing a region *)

Lemma release_slots_length ps prf : length (release_slots ps prf) = length prf.
Proof.
  induction ps as [|p ps IH]; [done|].
  cbn [release_slots foldr]. fold (release_slots ps prf). by rewrite length_insert.
Qed.

Lemma release_slots_lookup_other ps prf n :
  n ∉ map Z.to_nat ps -> release_slots ps prf !! n = prf !! n.
Proof.
  induction ps as [|p ps IH]; intros Hn; [done|].
  cbn [release_slots foldr]. fold (release_slots ps prf).
  cbn [map] in Hn. apply not_elem_of_cons in Hn as [Hne Hn].
  rewrite list_lookup_insert_ne by done. by apply IH.
Qed.

Lemma release_slots_lookup_released ps prf p :
  p ∈ ps -> (Z.to_nat p < length prf)%nat ->
  release_slots ps prf !! Z.to_nat p = Some free_slot.
Proof.
  induction ps as [|q ps IH]; intros Hin Hlt; [by apply elem_of_nil in Hin|].
  cbn [release_slots foldr]. fold (release_slots ps prf).
  destruct (decide (Z.to_nat q = Z.to_nat p)) as [->|Hne].
  - apply list_lookup_insert_eq. by rewrite release_slots_length.
  - rewrite list_lookup_insert_ne by done. apply IH; [|done].
    apply elem_of_cons in Hin as [->|Hin]; [done|exact Hin].
Qed.

(** What is stored in a slot before it is released does not matter. *)
Lemma release_slots_overwritten ps prf p x :
  <[Z.to_nat p := free_slot]> (release_slots ps (<[Z.to_nat p := x]> prf))
  = <[Z.to_nat p := free_slot]> (release_slots ps prf).
Proof.
  induction ps as [|q ps IH]; cbn [release_slots foldr].
  - apply list_insert_insert_eq.
  - fold (release_slots ps (<[Z.to_nat p := x]> prf)). fold (release_slots ps prf).
    destruct (decide (Z.to_nat p = Z.to_nat q)) as [Heq|Hne].
    + rewrite <- Heq, !list_insert_insert_eq. exact IH.
    + rewrite (list_insert_insert_ne _ (Z.to_nat p) (Z.to_nat q)) by done.
      rewrite IH. by rewrite (list_insert_insert_ne _ (Z.to_nat q) (Z.to_nat p)).
Qed.

Lemma rename_then_squash_cons a id rs s p s1 :
  rename_dest a id s = Ok p s1 ->
  rename_then_squash ((a, id) :: rs) s = (rename_then_squash rs >> undo_rename id) s1.
Proof.
  intros H. unfold rename_then_squash. cbn [for_each map rev fst snd].
  unfold bind. rewrite H. unfold ret at 1.
  destruct (for_each _ rs s1) as [[] s2| | |]; [|reflexivity..].
  rewrite for_each_app. unfold bind.
  destruct (for_each undo_rename (rev (map snd rs)) s2) as [[] s3| | |]; [|reflexivity..].
  cbn [for_each]. unfold bind, ret. by destruct (undo_rename id s3) as [[] ?| | |].
Qed.

Lemma rename_then_squash_eq reqs : forall s,
  RATs_sized s ->
  Forall (fun r => is_arch_reg r.1) reqs ->
  NoDup (map snd reqs) ->
  Forall (fun r => rename_history s !! r.2 = None) reqs ->
  (length reqs <= length (free_registers s))%nat ->
  Forall (is_phys_reg s) (free_registers s) ->
  rename_then_squash reqs s
  = Ok tt (mk_RegisterAllocator (frontend_RAT s) (backend_RAT s)
             (drop (length reqs) (free_registers s)
              ++ rev (take (length reqs) (free_registers s)))
             (release_slots (take (length reqs) (free_registers s))
                (physical_register_file s))
             (rename_history s)).
Proof.
  induction reqs as [|[a id] rs IH]; intros s Hsz Harch Hnd Hhist Hlen Hfree.
  - cbn. rewrite app_nil_r. by destruct s.
  - destruct (free_registers s) as [|p rest] eqn:E; [cbn in Hlen; lia|].
    apply Forall_cons in Harch as [Ha Harch]. cbn [fst] in Ha.
    cbn [map snd] in Hnd. apply NoDup_cons in Hnd as [Hid Hnd].
    apply Forall_cons in Hhist as [Hnone Hhist]. cbn [snd] in Hnone.
    apply Forall_cons in Hfree as [Hp Hrest].
    destruct Hsz as [Hf Hb].
    destruct (index_lookup (frontend_RAT s) a) as [old Hold]; [rewrite Hf; exact Ha|].
    rewrite (rename_then_squash_cons a id rs s p _
               (rename_dest_eq s a id old p rest (proj1 Ha) Hold E Hp)).
    rewrite Hnone. cbn [default app].
    erewrite bind_Ok; cycle 1.
    { apply IH.
      - split; cbn [frontend_RAT backend_RAT]; [by rewrite length_insert|done].
      - exact Harch.
      - exact Hnd.
      - cbn [rename_history]. apply Forall_forall. intros r Hr.
        rewrite lookup_insert_ne.
        + rewrite Forall_forall in Hhist. by apply Hhist.
        + intros ->. apply Hid. apply list_elem_of_In, in_map. by apply list_elem_of_In.
      - cbn [free_registers]. cbn in Hlen. lia.
      - cbn [free_registers]. eapply Forall_impl; [exact Hrest|].
        intros q Hq. unfold is_phys_reg in *. cbn [physical_register_file].
        by rewrite length_insert. }
    cbn [frontend_RAT backend_RAT free_registers physical_register_file rename_history].
    erewrite undo_rename_present; cycle 1.
    { cbn [rename_history]. apply lookup_insert_eq. }
    { intros c Hc. apply list_elem_of_singleton in Hc as ->.
      cbn [arch_reg frontend_RAT]. rewrite length_insert, Hf. exact Ha. }
    cbn [undo_all_spec foldr undo_one_spec set_rename_history frontend_RAT backend_RAT
         free_registers physical_register_file rename_history arch_reg old_phys_reg
         new_phys_reg].
    unfold set_rename_history, undo_one_spec.
    cbn [frontend_RAT backend_RAT free_registers physical_register_file rename_history
         arch_reg old_phys_reg new_phys_reg].
    rewrite decide_True.
    2:{ unfold is_phys_reg in *. cbn [physical_register_file].
        by rewrite release_slots_length, length_insert. }
    f_equal. f_equal.
    + rewrite list_insert_insert_eq. by apply list_insert_id.
    + cbn [length drop take rev]. by rewrite app_assoc.
    + cbn [length take release_slots foldr]. apply release_slots_overwritten.
    + by apply delete_insert_id.
Qed.

(** X13. Renaming a run of instructions (one destination each, distinct ids
    without earlier checkpoints) and rolling them back youngest first
    restores both RATs and the rename history; the [k] registers that were
    taken return to the back of the free list in reverse allocation order,
    their slots hold the released-slot contents, and every other slot is
    untouched. *)
Theorem rename_then_squash_restores (s : RegisterAllocator) (reqs : list (Z * Z)) :
  RATs_sized s ->
  Forall (fun r => is_arch_reg r.1) reqs ->
  NoDup (map snd reqs) ->
  Forall (fun r => rename_history s !! r.2 = None) reqs ->
  (length reqs <= length (free_registers s))%nat ->
  Forall (is_phys_reg s) (free_registers s) ->
  exists s',
    rename_then_squash reqs s = Ok tt s' /\
    frontend_RAT s' = frontend_RAT s /\
    backend_RAT s' = backend_RAT s /\
    rename_history s' = rename_history s /\
    free_registers s'
      = drop (length reqs) (free_registers s) ++ rev (take (length reqs) (free_registers s)) /\
    free_registers s' ≡ₚ free_registers s /\
    (forall p, p ∈ take (length reqs) (free_registers s) ->
               physical_register_file s' !! Z.to_nat p = Some free_slot) /\
    (forall n, n ∉ map Z.to_nat (take (length reqs) (free_registers s)) ->
               physical_register_file s' !! n = physical_register_file s !! n).
Proof.
  intros Hsz Harch Hnd Hhist Hlen Hfree.
  eexists. split; [by apply rename_then_squash_eq|].
  cbn [frontend_RAT backend_RAT free_registers physical_register_file rename_history].
  do 4 (split; [reflexivity|]). split.
  - rewrite <- Permutation_rev, Permutation_app_comm. by rewrite take_drop.
  - split.
    + intros p Hp. apply release_slots_lookup_released; [exact Hp|].
      apply elem_of_take in Hp as (i & Hi & _). apply list_elem_of_lookup_2 in Hi.
      rewrite Forall_forall in Hfree. specialize (Hfree p Hi).
      unfold is_phys_reg in Hfree. lia.
    + intros n Hn. by apply release_slots_lookup_other.
Qed.

Lemma rename_then_squash_restores_witness :
  exists s',
    rename_then_squash [(5, 100); (5, 101); (6, 102)] allocator8 = Ok tt s' /\
    frontend_RAT s' = frontend_RAT allocator8 /\
    rename_history s' = rename_history allocator8 /\
    free_registers s' = [3; 4; 5; 6; 7; 2; 1; 0].
Proof.
  destruct (rename_then_squash_restores allocator8 [(5, 100); (5, 101); (6, 102)])
    as (s' & Hrun & Hfront & _ & Hhist & Hfree & _).
  - split; vm_compute; reflexivity.
  - repeat constructor; vm_compute; intuition discriminate.
  - apply NoDup_ListNoDup. cbn [map snd].
    repeat (constructor; [cbn; intuition discriminate|]). constructor.
  - repeat constructor.
  - vm_compute. lia.
  - repeat constructor; vm_compute; intuition discriminate.
  - exists s'. split; [exact Hrun|]. split; [exact Hfront|]. split; [exact Hhist|exact Hfree].
Defined.

(** ** The self-check *)

Lemma concat_map_nil_iff {A B} (f : A -> list B) (l : list A) :
  concat (map f l) = [] <-> forall x, x ∈ l -> f x = [].
Proof.
  induction l as [|x l IH]; cbn [map concat].
  - split; [intros _ x Hx; by apply elem_of_nil in Hx|done].
  - rewrite app_nil, IH. split.
    + intros [Hx Hl] y [->|Hy]%elem_of_cons; [done|by apply Hl].
    + intros H. split; [apply H, elem_of_cons; by left|].
      intros y Hy. apply H, elem_of_cons. by right.
Qed.

Lemma in_use_check_nil_iff prf phys :
  match index_of (length prf) phys with
  | Some n =>
      match prf !! n with
      | Some r => if valid r || busy r then [FreeButValidOrBusy phys] else []
      | None => []
      end
  | None => []
  end = [] <->
  (forall r, 0 <= phys -> prf !! Z.to_nat phys = Some r -> valid r = false /\ busy r = false).
Proof.
  destruct (index_of (length prf) phys) as [n|] eqn:E.
  - apply index_of_inv in E as [Hrange ->].
    destruct (prf !! Z.to_nat phys) as [r|] eqn:Hr.
    + split.
      * intros H r' _ [= <-]. destruct (valid r), (busy r); try discriminate H. done.
      * intros H. destruct (H r) as [-> ->]; [lia|done|done].
    + split; [intros _ r' _ [=]|done].
  - split; [|done]. intros _ r H0 Hr. exfalso.
    apply lookup_lt_Some in Hr. unfold index_of in E.
    destruct (Z.leb_spec 0 phys); [|lia].
    destruct (Z.ltb_spec phys (Z.of_nat (length prf))); [discriminate|lia].
Qed.

Lemma validate_free_list_spec prf queue : forall acc errors final_set,
  validate_free_list prf queue acc = (errors, final_set) ->
  (forall x, x ∈ final_set <-> x ∈ queue \/ x ∈ acc) /\
  (errors = [] <->
   NoDup queue /\
   (forall p, p ∈ queue -> p ∉ acc) /\
   (forall p r, p ∈ queue -> 0 <= p -> prf !! Z.to_nat p = Some r ->
                valid r = false /\ busy r = false)).
Proof.
  induction queue as [|phys rest IH]; intros acc errors final_set H; cbn [validate_free_list] in H.
  - injection H as <- <-. split.
    + intros x. rewrite elem_of_nil. tauto.
    + split; [intros _|done]. split; [apply NoDup_nil_2|].
      split; intros p; [|intros r]; intros Hp; by apply elem_of_nil in Hp.
  - destruct (validate_free_list prf rest ({[phys]} ∪ acc)) as [es fs] eqn:E.
    injection H as <- <-. destruct (IH _ _ _ E) as [Hset Hes]. split.
    + intros x. rewrite Hset, elem_of_cons, elem_of_union, elem_of_singleton. tauto.
    + rewrite !app_nil, in_use_check_nil_iff, Hes, NoDup_cons. split.
      * intros (Hdup & Huse & Hnd & Hfresh & Hslots).
        assert (phys ∉ acc) as Hphys by (by destruct (decide (phys ∈ acc))).
        split; [split; [|exact Hnd]|split].
        -- intros Hin. apply (Hfresh phys Hin), elem_of_union. left.
           by apply elem_of_singleton.
        -- intros p [->|Hp]%elem_of_cons; [exact Hphys|].
           intros Hacc. apply (Hfresh p Hp), elem_of_union. by right.
        -- intros p r [->|Hp]%elem_of_cons; [apply Huse|by apply Hslots].
      * intros ([Hnotin Hnd] & Hfresh & Hslots).
        split; [|split; [|split; [exact Hnd|split]]].
        -- rewrite decide_False; [done|]. apply Hfresh, elem_of_cons. by left.
        -- intros r. apply Hslots, elem_of_cons. by left.
        -- intros p Hp [->%elem_of_singleton|Hacc]%elem_of_union; [done|].
           by apply (Hfresh p); [apply elem_of_cons; right|].
        -- intros p r Hp. apply Hslots, elem_of_cons. by right.
Qed.

Lemma validate_history_nil_iff free_set h :
  validate_history free_set h = [] <->
  (forall id cps c, h !! id = Some cps -> c ∈ cps -> new_phys_reg c ∉ free_set).
Proof.
  unfold validate_history. rewrite concat_map_nil_iff. split.
  - intros H id cps c Hcps Hc Hin.
    specialize (H (id, cps)). rewrite elem_of_map_to_list in H. specialize (H Hcps).
    cbn [fst snd] in H. rewrite concat_map_nil_iff in H. specialize (H c Hc).
    by rewrite decide_True in H.
  - intros H [id cps] Hcps. apply elem_of_map_to_list in Hcps. cbn [fst snd].
    apply concat_map_nil_iff. intros c Hc. rewrite decide_False; [done|]. by eapply H.
Qed.

(** X14. [validate_state] never fails and never changes the allocator.  It
    prints no error exactly when the free list has no duplicates, no entry
    of the free list that is a slot is marked valid or busy, and no
    checkpoint's new register is in the free list.  (Entries of the free list
    that are no slot are not reported.)  In particular releasing the same
    register twice is always reported. *)
Theorem validate_state_clean_iff (s : RegisterAllocator) :
  (validate_state s = [] <->
   NoDup (free_registers s) /\
   (forall p r, p ∈ free_registers s -> 0 <= p ->
                physical_register_file s !! Z.to_nat p = Some r ->
                valid r = false /\ busy r = false) /\
   (forall id cps c, rename_history s !! id = Some cps -> c ∈ cps ->
                     new_phys_reg c ∉ free_registers s)) /\
  (forall p s1 s2, free_register p s = Ok tt s1 -> free_register p s1 = Ok tt s2 ->
                   validate_state s2 <> []).
Proof.
  assert (forall t, validate_state t = [] <->
     NoDup (free_registers t) /\
     (forall p r, p ∈ free_registers t -> 0 <= p ->
                  physical_register_file t !! Z.to_nat p = Some r ->
                  valid r = false /\ busy r = false) /\
     (forall id cps c, rename_history t !! id = Some cps -> c ∈ cps ->
                       new_phys_reg c ∉ free_registers t)) as Hiff.
  { intros t. unfold validate_state.
    destruct (validate_free_list _ _ ∅) as [es fs] eqn:E.
    destruct (validate_free_list_spec _ _ _ _ _ E) as [Hset Hes].
    rewrite app_nil, Hes, validate_history_nil_iff. split.
    - intros ((Hnd & _ & Hslots) & Hhist). split; [exact Hnd|]. split; [exact Hslots|].
      intros id cps c Hcps Hc Hin. apply (Hhist id cps c Hcps Hc), Hset. by left.
    - intros (Hnd & Hslots & Hhist). split; [split; [exact Hnd|split; [|exact Hslots]]|].
      + intros p _. apply not_elem_of_empty.
      + intros id cps c Hcps Hc [Hin|Hin]%Hset; [by eapply Hhist|].
        by apply not_elem_of_empty in Hin. }
  split; [apply Hiff|].
  intros p s1 s2 H1 H2 Hclean. apply Hiff in Hclean as [Hnd _].
  unfold free_register in H1, H2.
  apply bind_Ok_inv in H1 as (u1 & t1 & Ha1 & H1).
  apply prf_at_assign_Ok_inv in Ha1 as (_ & Hf1 & _).
  unfold free_registers_push in H1. injection H1 as <-.
  apply bind_Ok_inv in H2 as (u2 & t2 & Ha2 & H2).
  apply prf_at_assign_Ok_inv in Ha2 as (_ & Hf2 & _).
  unfold free_registers_push in H2. injection H2 as <-.
  cbn [free_registers] in Hnd, Hf2. rewrite Hf2 in Hnd.
  apply NoDup_app in Hnd as (Hnd1 & Hdisj & _).
  apply (Hdisj p); [apply elem_of_app; right|]; by apply list_elem_of_singleton.
Qed.

Lemma validate_state_clean_iff_witness :
  NoDup (free_registers scenario_stray_front) /\
  validate_state scenario_stray_front = [] /\
  exists s1 s2,
    free_register 1 scenario_retire = Ok tt s1 /\ free_register 1 s1 = Ok tt s2 /\
    validate_state s2 <> [].
Proof.
  assert (validate_state scenario_stray_front = []) as Hclean by (vm_compute; reflexivity).
  split; [exact (proj1 (proj1 (proj1 (validate_state_clean_iff _)) Hclean))|].
  split; [exact Hclean|].
  exists (final_state (free_register 1) scenario_retire).
  exists (final_state (free_register 1) (final_state (free_register 1) scenario_retire)).
  assert (free_register 1 scenario_retire
          = Ok tt (final_state (free_register 1) scenario_retire)) as H1
      by (vm_compute; reflexivity).
  assert (free_register 1 (final_state (free_register 1) scenario_retire)
          = Ok tt (final_state (free_register 1)
                     (final_state (free_register 1) scenario_retire))) as H2
      by (vm_compute; reflexivity).
  split; [exact H1|]. split; [exact H2|].
  exact (proj2 (validate_state_clean_iff scenario_retire) 1 _ _ H1 H2).
Defined.

(** * Properties of the trace reader *)

Lemma string_app_assoc (a b c : string) : (a +:+ b) +:+ c = a +:+ (b +:+ c).
Proof.
  induction a as [|x a IH]; [reflexivity|].
  change (String x ((a +:+ b) +:+ c) = String x (a +:+ (b +:+ c))). by rewrite IH.
Qed.

Lemma string_app_nil_r (a : string) : a +:+ "" = a.
Proof.
  induction a as [|x a IH]; [reflexivity|].
  change (String x (a +:+ "") = String x a). by rewrite IH.
Qed.

Lemma concat_empty_cons (x : string) (l : list string) :
  String.concat "" (x :: l) = x +:+ String.concat "" l.
Proof.
  destruct l as [|y l].
  - cbn [String.concat]. by rewrite string_app_nil_r.
  - reflexivity.
Qed.

(** The entries after the first: each with its comma in front. *)
Lemma print_nonzero_rest show xs out :
  print_nonzero show xs true out
  = out +:+ String.concat "" (map (fun x => "," +:+ show x) (filter (fun x => x <> 0) xs)).
Proof.
  revert out. induction xs as [|x xs IH]; intros out; cbn [print_nonzero].
  - by rewrite string_app_nil_r.
  - destruct (Z.eqb_spec x 0) as [->|Hx]; cbn [negb].
    + rewrite filter_cons_False by (intros H; by apply H). apply IH.
    + rewrite filter_cons_True by done. rewrite IH. cbn [map].
      by rewrite concat_empty_cons, !string_app_assoc.
Qed.

Lemma concat_comma_cons (x : string) (l : list string) :
  String.concat "," (x :: l) = x +:+ String.concat "" (map (fun y => "," +:+ y) l).
Proof.
  revert x. induction l as [|y l IH]; intros x.
  - cbn [String.concat map]. by rewrite string_app_nil_r.
  - change (String.concat "," (x :: y :: l))
      with (x +:+ "," +:+ String.concat "," (y :: l)).
    rewrite (IH y). cbn [map]. by rewrite concat_empty_cons, string_app_assoc.
Qed.

Lemma print_nonzero_first show xs out :
  print_nonzero show xs false out
  = out +:+ String.concat "," (map show (filter (fun x => x <> 0) xs)).
Proof.
  revert out. induction xs as [|x xs IH]; intros out; cbn [print_nonzero].
  - by rewrite string_app_nil_r.
  - destruct (Z.eqb_spec x 0) as [->|Hx]; cbn [negb].
    + rewrite filter_cons_False by (intros H; by apply H). apply IH.
    + rewrite filter_cons_True by done. rewrite print_nonzero_rest. cbn [map].
      rewrite concat_comma_cons, string_app_assoc, map_map. reflexivity.
Qed.

(** X15. Each bracketed array of a printed record shows exactly the entries
    that are not zero, in array order, separated by single commas, with no
    comma after the opening bracket or before the closing one; what was
    printed before is kept. *)
Theorem print_array_spec (label : string) (show : Z -> string) (xs : list Z) (out : string) :
  print_array label show xs out
  = out +:+ "  " +:+ label +:+ "=["
        +:+ String.concat "," (map show (filter (fun x => x <> 0) xs)) +:+ "]".
Proof.
  unfold print_array. rewrite print_nonzero_first. by rewrite !string_app_assoc.
Qed.

Lemma div_step (n k : nat) : (0 < k)%nat -> (k <= n)%nat -> (n / k = S ((n - k) / k))%nat.
Proof.
  intros Hk Hle. replace n with (1 * k + (n - k))%nat at 1 by lia.
  rewrite Nat.div_add_l by lia. lia.
Qed.

Lemma read_records_run size :
  (0 < size)%nat ->
  forall fuel l c rs,
    0 <= c < 18446744073709551616 ->
    (length l / size < fuel)%nat ->
    exists st new,
      read_records fuel size (mk_istream l false false) c rs
      = (st, (c + Z.of_nat (length l / size)) mod 18446744073709551616, rs ++ new) /\
      eofbit st = true /\ failbit st = true /\
      length new = (length l / size)%nat /\
      Forall (fun r => length r = size) new /\
      concat new = take (size * (length l / size)) l.
Proof.
  intros Hsize. induction fuel as [|fuel IH]; intros l c rs Hc Hfuel; [lia|].
  cbn [read_records]. unfold istream_read. cbn [eofbit failbit remaining orb].
  destruct (decide (size <= length l)%nat) as [Hle|Hgt].
  - cbn [failbit].
    pose proof (div_step (length l) size Hsize Hle) as Hq.
    destruct (IH (drop size l) ((c + 1) mod 18446744073709551616) (rs ++ [take size l]))
      as (st & new & Hrun & Heof & Hfail & Hlen & Hall & Hcat).
    + apply Z.mod_pos_bound. lia.
    + rewrite length_drop. lia.
    + rewrite length_drop in Hrun, Hlen, Hcat.
      exists st, (take size l :: new). rewrite Hrun. split.
      * f_equal; [f_equal|by rewrite <- app_assoc].
        rewrite Zplus_mod_idemp_l, Hq. f_equal. lia.
      * split; [exact Heof|]. split; [exact Hfail|].
        split; [cbn [length]; lia|].
        split; [apply Forall_cons; split; [by apply length_take_le|exact Hall]|].
        cbn [concat]. rewrite Hcat, take_take_drop. f_equal. rewrite Hq. lia.
  - cbn [failbit].
    assert (length l / size = 0)%nat as Hq by (apply Nat.div_small; lia).
    exists (mk_istream [] true true), []. rewrite Hq, app_nil_r.
    split; [by rewrite Z.add_0_r, Z.mod_small|].
    do 4 (split; [done|]). by rewrite Nat.mul_0_r.
Qed.

(** X16. The reading loop.  With enough fuel for the loop to finish, the
    records handed to the printing code are the consecutive [rec_size]-byte
    blocks of the input, [count] is their number, bytes left over after the
    last whole record are dropped, and the loop always ends with [eofbit]
    set: the epilogue prints the record count, never the warning about a
    truncated record, whatever the length of the input. *)
Theorem read_trace_spec (cloudsuite : bool) (bytes : list Z) (fuel : nat) :
  (length bytes / Z.to_nat (rec_size cloudsuite) < fuel)%nat ->
  exists records,
    read_trace cloudsuite bytes fuel
    = (records,
       Z.of_nat (length bytes / Z.to_nat (rec_size cloudsuite)) mod 18446744073709551616,
       false) /\
    length records = (length bytes / Z.to_nat (rec_size cloudsuite))%nat /\
    Forall (fun r => length r = Z.to_nat (rec_size cloudsuite)) records /\
    concat records
    = take (Z.to_nat (rec_size cloudsuite) * (length bytes / Z.to_nat (rec_size cloudsuite)))
        bytes /\
    Z.to_nat (rec_size cloudsuite) = (if cloudsuite then 84 else 64)%nat.
Proof.
  intros Hfuel.
  assert (0 < Z.to_nat (rec_size cloudsuite))%nat as Hsize by (destruct cloudsuite; vm_compute; lia).
  destruct (read_records_run _ Hsize fuel bytes 0 [] ltac:(lia) Hfuel)
    as (st & new & Hrun & Heof & _ & Hlen & Hall & Hcat).
  exists new. unfold read_trace. rewrite Hrun, Heof. cbn [app negb Z.add].
  split; [reflexivity|]. split; [exact Hlen|]. split; [exact Hall|].
  split; [exact Hcat|]. by destruct cloudsuite.
Qed.

Lemma read_trace_spec_witness :
  exists records,
    read_trace false (replicate 150 7) 3 = (records, 2, false) /\
    length records = 2%nat /\
    concat records = replicate 128 7.
Proof.
  destruct (read_trace_spec false (replicate 150 7) 3)
    as (records & Hrun & Hlen & _ & Hcat & _); [vm_compute; lia|].
  exists records. split; [exact Hrun|]. split; [exact Hlen|]. exact Hcat.
Defined.

(** * Retiring twice *)

Lemma retire_dest_register_eq s p r old :
  0 <= p -> physical_register_file s !! Z.to_nat p = Some r ->
  0 <= arch_reg_index r -> backend_RAT s !! Z.to_nat (arch_reg_index r) = Some old ->
  retire_dest_register p s
  = (if negb (old =? -1) then free_register old else ret tt)
      (mk_RegisterAllocator (frontend_RAT s)
         (<[Z.to_nat (arch_reg_index r) := p]> (backend_RAT s))
         (free_registers s) (physical_register_file s) (rename_history s)).
Proof.
  intros Hp Hr Ha Hold. unfold retire_dest_register.
  rewrite (bind_Ok _ _ _ _ _ (prf_at_eq s p r Hp Hr)).
  rewrite (bind_Ok _ _ _ _ _ (backend_RAT_get_eq s _ old Ha Hold)).
  rewrite (bind_Ok _ _ _ _ _
             (backend_RAT_set_eq s _ p (lookup_index _ _ _ Ha Hold))).
  reflexivity.
Qed.

(** X17. Retirement is not idempotent.  Retiring [p] a second time finds [p]
    itself as the previous backend mapping of its architectural register and
    releases it: afterwards [p] is in the free list and its slot holds the
    released-slot contents, while the backend RAT still maps the
    architectural register to [p]. *)
Theorem retire_twice_releases (s : RegisterAllocator) (p old : Z) (r : physical_register) :
  is_phys_reg s p ->
  physical_register_file s !! Z.to_nat p = Some r ->
  0 <= arch_reg_index r ->
  backend_RAT s !! Z.to_nat (arch_reg_index r) = Some old ->
  old <> p -> old = UNMAPPED \/ is_phys_reg s old ->
  exists s1 s2,
    retire_dest_register p s = Ok tt s1 /\
    retire_dest_register p s1 = Ok tt s2 /\
    backend_RAT s2 !! Z.to_nat (arch_reg_index r) = Some p /\
    p ∈ free_registers s2 /\
    physical_register_file s2 !! Z.to_nat p = Some free_slot /\
    free_registers s2 = free_registers s1 ++ [p].
Proof.
  intros Hp Hr Ha Hold Hne Hty.
  pose proof (lookup_index _ _ _ Ha Hold) as Hidx.
  assert (Z.to_nat (arch_reg_index r) < length (backend_RAT s))%nat as Hlt by lia.
  assert (exists s1,
             retire_dest_register p s = Ok tt s1 /\
             backend_RAT s1 = <[Z.to_nat (arch_reg_index r) := p]> (backend_RAT s) /\
             physical_register_file s1 !! Z.to_nat p = Some r /\
             length (physical_register_file s1) = length (physical_register_file s))
    as (s1 & Hrun1 & Hb1 & Hr1 & Hlen1).
  { rewrite (retire_dest_register_eq s p r old (proj1 Hp) Hr Ha Hold).
    destruct (Z.eqb_spec old (-1)) as [->|Hold']; cbn [negb].
    - eexists. split; [reflexivity|]. cbn. by split.
    - destruct Hty as [->|Hold_range]; [done|].
      rewrite free_register_eq by done. eexists. split; [reflexivity|].
      cbn [backend_RAT physical_register_file]. split; [reflexivity|].
      split; [|by rewrite length_insert].
      rewrite list_lookup_insert_ne; [done|].
      unfold is_phys_reg in *. intros Heq. apply Hne. lia. }
  exists s1.
  assert (backend_RAT s1 !! Z.to_nat (arch_reg_index r) = Some p) as Hmap
      by (rewrite Hb1; by apply list_lookup_insert_eq).
  assert (is_phys_reg s1 p) as Hp1 by (unfold is_phys_reg in *; by rewrite Hlen1).
  rewrite (retire_dest_register_eq s1 p r p (proj1 Hp) Hr1 Ha Hmap).
  destruct (Z.eqb_spec p (-1)) as [->|_]; [unfold is_phys_reg in Hp; lia|]. cbn [negb].
  rewrite free_register_eq
    by (unfold is_phys_reg in *; cbn [physical_register_file]; exact Hp1).
  eexists. split; [exact Hrun1|]. split; [reflexivity|].
  cbn [backend_RAT free_registers physical_register_file].
  split; [apply list_lookup_insert_eq; apply lookup_lt_Some in Hmap; exact Hmap|].
  split; [apply elem_of_app; right; by apply list_elem_of_singleton|].
  split; [|reflexivity].
  apply list_lookup_insert_eq. unfold is_phys_reg in Hp1. lia.
Qed.

Lemma retire_twice_releases_witness :
  exists s1 s2,
    retire_dest_register 1 scenario_retire = Ok tt s1 /\
    retire_dest_register 1 s1 = Ok tt s2 /\
    backend_RAT s2 !! 5%nat = Some 1 /\
    1 ∈ free_registers s2.
Proof.
  destruct (retire_twice_releases scenario_retire 1 0 (mk_physical_register 5 101 true true))
    as (s1 & s2 & H1 & H2 & Hback & Hin & _).
  - unfold is_phys_reg. vm_compute. split; [discriminate|reflexivity].
  - reflexivity.
  - done.
  - reflexivity.
  - done.
  - right. unfold is_phys_reg. vm_compute. split; [discriminate|reflexivity].
  - exists s1, s2. split; [exact H1|]. split; [exact H2|]. split; [exact Hback|exact Hin].
Defined.
